(** * Text-LLM generation service: validator, prompt builders, text analysis
      and request handler of [modal_app.py]

    The Python module is embedded shallowly.

    - A Python [str] is a [string]; each character is a code point below 256.
      Whitespace is what [str.isspace] answers on that range, and [lower] is
      [str.lower] on that range.
    - A decoded JSON document is a [value]; a [dict] keeps its items in
      insertion order as an association list read by first match.
    - A Python call either returns or raises: [res].
    - What the module reads from its process and from the libraries it calls
      is gathered in one record, [runtime]: the two environment strings the
      handler depends on, [repr] of a set of strings (CPython fixes no
      order), [str] of floats, lists and dicts, [json.loads], and the
      completion endpoint behind [client.chat.completions.create].
    - Logging and wall-clock timing have no influence on what is returned and
      are left out; the calls made to the completion endpoint are recorded. *)

From Stdlib Require Import ZArith List Bool Ascii String Lia.
From Stdlib Require Import DecimalString.
From Stdlib Require Floats.SpecFloat.
Import ListNotations.

Local Open Scope string_scope.
Local Open Scope Z_scope.

(** ** Python strings *)

Module PyStr.

(** [str.isspace] on one character (code points 9-13, 28-32, 0x85, 0xA0). *)
Definition isspace (c : ascii) : bool :=
  let n := nat_of_ascii c in
  ((9 <=? n) && (n <=? 13) || (28 <=? n) && (n <=? 32)
   || (n =? 133) || (n =? 160))%nat.

(** [str.lower] on one character: A-Z, and the Latin-1 capitals but the
    multiplication sign. *)
Definition lower_char (c : ascii) : ascii :=
  let n := nat_of_ascii c in
  if ((65 <=? n) && (n <=? 90)
      || (192 <=? n) && (n <=? 222) && negb (n =? 215))%nat
  then ascii_of_nat (n + 32) else c.

Fixpoint lower (s : string) : string :=
  match s with
  | EmptyString => EmptyString
  | String c s' => String (lower_char c) (lower s')
  end.

Definition is_empty (s : string) : bool :=
  match s with EmptyString => true | _ => false end.

Fixpoint lstrip (s : string) : string :=
  match s with
  | EmptyString => EmptyString
  | String c s' => if isspace c then lstrip s' else s
  end.

Fixpoint rstrip (s : string) : string :=
  match s with
  | EmptyString => EmptyString
  | String c s' =>
      match rstrip s' with
      | EmptyString => if isspace c then EmptyString else String c EmptyString
      | r => String c r
      end
  end.

(** [s.strip()] *)
Definition strip (s : string) : string := rstrip (lstrip s).

(** [s.split(sep)] for a one-character separator: never an empty list. *)
Fixpoint split_on (sep : ascii) (s : string) : list string :=
  match s with
  | EmptyString => [EmptyString]
  | String c s' =>
      if Ascii.eqb c sep then EmptyString :: split_on sep s'
      else match split_on sep s' with
           | [] => [String c EmptyString]
           | w :: ws => String c w :: ws
           end
  end.

(** [s.split()]: CPython's left-to-right scan, [w] being the word under
    construction. *)
Fixpoint split_ws_from (w : string) (s : string) : list string :=
  match s with
  | EmptyString => if is_empty w then [] else [w]
  | String c s' =>
      if isspace c
      then (if is_empty w then split_ws_from EmptyString s'
            else w :: split_ws_from EmptyString s')
      else split_ws_from (w ++ String c EmptyString) s'
  end.

Definition split_ws (s : string) : list string := split_ws_from EmptyString s.

(** [sub in s] *)
Fixpoint contains (sub s : string) : bool :=
  match s with
  | EmptyString => prefix sub EmptyString
  | String _ s' => prefix sub s || contains sub s'
  end.

(** [s[:n]] *)
Definition take (n : nat) (s : string) : string := substring 0 n s.

(** [str(n)] for an [int]. *)
Definition of_Z (z : Z) : string := NilZero.string_of_int (Z.to_int z).

(** Number of positions of [s] at which [sub] starts. *)
Fixpoint occurrences (sub s : string) : nat :=
  match s with
  | EmptyString => if prefix sub EmptyString then 1%nat else 0%nat
  | String _ s' => ((if prefix sub s then 1 else 0) + occurrences sub s')%nat
  end.

End PyStr.
Import PyStr.

(** ** Python values, exceptions, results *)

Set Warnings "-register-all".

(** What [json] decodes to. *)
Inductive value : Type :=
| VNull
| VBool (b : bool)
| VInt (z : Z)
| VFloat (f : SpecFloat.spec_float)
| VStr (s : string)
| VList (l : list value)
| VDict (d : list (string * value)).

Definition dict := list (string * value).

Inductive exn : Type :=
| TypeError (msg : string)
| AttributeError (msg : string)
| ValueError (msg : string)
| UnboundLocalError (msg : string)
| Exception (msg : string).

(** [str(e)] *)
Definition exn_str (e : exn) : string :=
  match e with
  | TypeError m | AttributeError m | ValueError m
  | UnboundLocalError m | Exception m => m
  end.

Inductive res (A : Type) : Type :=
| Ok (a : A)
| Raise (e : exn).
Arguments Ok {A} a.
Arguments Raise {A} e.

Definition bind {A B : Type} (m : res A) (k : A -> res B) : res B :=
  match m with
  | Ok a => k a
  | Raise e => Raise e
  end.

Notation "x <- m ;; k" := (bind m (fun x => k))
  (at level 61, m at next level, right associativity).

(** Truth value of an object ([bool(v)], [not v], [v or ...]). *)
Definition truthy (v : value) : bool :=
  match v with
  | VNull => false
  | VBool b => b
  | VInt z => negb (z =? 0)
  | VFloat (SpecFloat.S754_zero _) => false
  | VFloat _ => true
  | VStr s => negb (is_empty s)
  | VList l => match l with [] => false | _ => true end
  | VDict d => match d with [] => false | _ => true end
  end.

(** [isinstance(v, int)], with the integer it holds ([bool] is a subclass). *)
Definition as_int (v : value) : option Z :=
  match v with
  | VInt z => Some z
  | VBool b => Some (if b then 1 else 0)
  | _ => None
  end.

(** Lookup in an association list keyed by strings. *)
Fixpoint assoc {A : Type} (k : string) (l : list (string * A)) : option A :=
  match l with
  | [] => None
  | (k', a) :: l' => if String.eqb k k' then Some a else assoc k l'
  end.

(** [d.get(k)], also [k in d] and [d[k]] once present. *)
Definition dict_get (d : dict) (k : string) : option value := assoc k d.

(** [d[k] = v]: overwrite in place, or append. *)
Fixpoint dict_set (d : dict) (k : string) (v : value) : dict :=
  match d with
  | [] => [(k, v)]
  | (k', v') :: d' =>
      if String.eqb k k' then (k, v) :: d' else (k', v') :: dict_set d' k v
  end.

(** [d.update(items)] *)
Definition dict_update (d items : dict) : dict :=
  fold_left (fun acc kv => dict_set acc (fst kv) (snd kv)) items d.

(** Hashing an object before a set or dict lookup: lists and dicts have no
    hash. *)
Definition hash_check (v : value) : res unit :=
  match v with
  | VList _ => Raise (TypeError "unhashable type: 'list'")
  | VDict _ => Raise (TypeError "unhashable type: 'dict'")
  | _ => Ok tt
  end.

(** [v in S] for a set of strings. *)
Definition in_str_set (v : value) (S : list string) : res bool :=
  _ <- hash_check v ;;
  match v with
  | VStr s => Ok (existsb (String.eqb s) S)
  | _ => Ok false
  end.

(** [T.get(v)] for a table keyed by strings. *)
Definition table_get {A : Type} (T : list (string * A)) (v : value)
  : res (option A) :=
  _ <- hash_check v ;;
  match v with
  | VStr s => Ok (assoc s T)
  | _ => Ok None
  end.

(** ** The completion endpoint and the process environment *)

(** One call of [client.chat.completions.create]; temperature 0.7 and seed 42
    are the same in every call. *)
Record call : Type := mk_call {
  call_model : value;
  call_system : string;
  call_user : string;
  call_max_tokens : Z
}.

(** What a call gives back: the message content and [usage.total_tokens], or
    an exception with the given text. *)
Inductive completion : Type :=
| Completed (content : string) (total_tokens : Z)
| Failed (msg : string).

Record runtime : Type := mk_runtime {
  API_KEY : string;
  MODEL_NAME : string;
  set_repr : list string -> string;
  other_str : value -> string;
  json_loads : string -> option value;
  create : list call -> call -> completion
}.

(** [str(v)], as an f-string formats [v]. *)
Definition py_str (E : runtime) (v : value) : string :=
  match v with
  | VNull => "None"
  | VBool true => "True"
  | VBool false => "False"
  | VInt z => of_Z z
  | VStr s => s
  | _ => other_str E v
  end.

(** ** Module constants *)

Definition LENGTH_TO_TOKENS : list (string * Z) :=
  [("20s", 100); ("30s", 150); ("45s", 225); ("60s", 300)].

Definition LENGTH_TO_WORDS : list (string * string) :=
  [("20s", "30-50"); ("30s", "45-75"); ("45s", "70-110"); ("60s", "90-150")].

Definition VALID_LENGTHS : list string := ["20s"; "30s"; "45s"; "60s"].
Definition VALID_TONES : list string :=
  ["neutral"; "curious"; "dramatic"; "serious"; "funny"; "inspirational"].
Definition VALID_HOOK_STYLES : list string :=
  ["question"; "shock"; "bold claim"; "story"].

(** ** validate_input *)

(** [(is_valid, error_message, error_code)] *)
Definition verdict : Type := bool * option string * option string.

Definition reject (msg : string) : res verdict :=
  Ok (false, Some msg, Some "VALIDATION_ERROR").

Definition fmt_opt_Z (o : option Z) : string :=
  match o with Some z => of_Z z | None => "None" end.

Definition opt_Z_eqb (n : Z) (o : option Z) : bool :=
  match o with Some m => n =? m | None => false end.

Definition validate_input (E : runtime) (input_data : value) : res verdict :=
  match input_data with
  | VDict d =>
    match dict_get d "topic" with
    | None => reject "Field 'topic' is required and cannot be empty"
    | Some topic =>
    if negb (truthy topic)
    then reject "Field 'topic' is required and cannot be empty" else
    match dict_get d "length" with
    | None => reject "Field 'length' is required"
    | Some length =>
    ok_length <- in_str_set length VALID_LENGTHS ;;
    if negb ok_length
    then reject ("Field 'length' must be one of " ++ set_repr E VALID_LENGTHS)
    else
    match dict_get d "tone" with
    | None => reject "Field 'tone' is required"
    | Some tone =>
    ok_tone <- in_str_set tone VALID_TONES ;;
    if negb ok_tone
    then reject ("Field 'tone' must be one of " ++ set_repr E VALID_TONES)
    else
    match dict_get d "hook_style" with
    | None => reject "Field 'hook_style' is required"
    | Some hook_style =>
    ok_style <- in_str_set hook_style VALID_HOOK_STYLES ;;
    if negb ok_style
    then reject ("Field 'hook_style' must be one of "
                 ++ set_repr E VALID_HOOK_STYLES)
    else
    match dict_get d "max_tokens" with
    | None => reject "Field 'max_tokens' is required"
    | Some max_tokens =>
    match as_int max_tokens with
    | None => reject "Field 'max_tokens' must be a positive integer"
    | Some n =>
    if n <=? 0
    then reject "Field 'max_tokens' must be a positive integer" else
    expected_tokens <- table_get LENGTH_TO_TOKENS length ;;
    if negb (opt_Z_eqb n expected_tokens)
    then reject ("Field 'max_tokens' must be " ++ fmt_opt_Z expected_tokens
                 ++ " for length '" ++ py_str E length ++ "'")
    else Ok (true, None, None)
    end end end end end end
  | _ => reject "Input must be a dictionary"
  end.

(** ** Prompt builders *)

Definition nl : string := String (ascii_of_nat 10) EmptyString.

Definition hook_instructions (topic : string) : list (string * string) :=
  [("question", "Start with a thought-provoking question about " ++ topic);
   ("shock", "Open with a surprising or shocking fact about " ++ topic);
   ("bold claim", "Make a bold, attention-grabbing statement about " ++ topic);
   ("story",
    "Begin with a brief, engaging story or anecdote related to " ++ topic)].

(** [T.get(k, default)] *)
Definition get_default {A : Type} (T : list (string * A)) (k : string)
  (default : A) : A :=
  match assoc k T with Some a => a | None => default end.

Definition build_hook_prompt (topic hook_style tone : string) : string :=
  get_default (hook_instructions topic) hook_style
    (get_default (hook_instructions topic) "question" EmptyString).

Definition main_tone_instructions : list (string * string) :=
  [("neutral", "Use a balanced, informative tone");
   ("curious", "Maintain a sense of wonder and curiosity");
   ("dramatic", "Use dramatic language and emphasis");
   ("serious", "Keep a serious, authoritative tone");
   ("funny", "Include humor and light-heartedness");
   ("inspirational", "Be uplifting and motivational")].

(** [branding_text] of [build_main_prompt] *)
Definition main_branding_text (brand_name : string) (include_branding : bool)
  : string :=
  if include_branding
  then nl ++ "- Naturally mention '" ++ brand_name
       ++ "' once in the content if it fits organically"
  else EmptyString.

Definition build_main_prompt (E : runtime) (topic length tone hook_style : string)
  (word_count : value) (brand_name : string) (include_branding : bool)
  : string :=
  let word_range :=
    if truthy word_count then py_str E word_count
    else get_default LENGTH_TO_WORDS length "30-50" in
  let hook_prompt := build_hook_prompt topic hook_style tone in
  let branding_text := main_branding_text brand_name include_branding in
  "Generate a " ++ length ++ " video script about: " ++ topic ++ nl
  ++ nl
  ++ "Requirements:" ++ nl
  ++ "- " ++ hook_prompt ++ nl
  ++ "- Maintain a " ++ get_default main_tone_instructions tone "neutral"
  ++ " tone throughout" ++ nl
  ++ "- Target word count: " ++ word_range ++ " words" ++ nl
  ++ "- Format: Start with the hook, then continue with the main content" ++ nl
  ++ "- Make it engaging, clear, and suitable for video narration" ++ nl
  ++ "- Keep sentences concise and punchy" ++ nl
  ++ branding_text ++ nl
  ++ nl
  ++ "Output only the script text, starting with the hook line, then the main content.".

Definition voice_tone_instructions : list (string * string) :=
  [("neutral", "conversational and clear");
   ("curious", "wondering and engaging");
   ("dramatic", "dramatic and expressive");
   ("serious", "authoritative and clear");
   ("funny", "light-hearted and natural");
   ("inspirational", "uplifting and warm")].

(** [branding_text] of [build_voice_script_prompt] *)
Definition voice_branding_text (brand_name : string) (include_branding : bool)
  : string :=
  if include_branding
  then nl ++ "- Naturally mention '" ++ brand_name
       ++ "' once if it fits organically"
  else EmptyString.

Definition build_voice_script_prompt (E : runtime) (topic tone : string)
  (voice_script_style : value) (brand_name : string)
  (include_branding : bool) : string :=
  let style_instruction :=
    if truthy voice_script_style then py_str E voice_script_style
    else "narration" in
  let branding_text := voice_branding_text brand_name include_branding in
  "Generate a voice narration script about: " ++ topic ++ nl
  ++ nl
  ++ "Requirements:" ++ nl
  ++ "- Optimized for voice/narration (more conversational and natural-sounding)"
  ++ nl
  ++ "- Use "
  ++ get_default voice_tone_instructions tone "conversational and clear"
  ++ " tone" ++ nl
  ++ "- Style: " ++ style_instruction ++ nl
  ++ "- Include natural pauses indicated by punctuation (commas, periods)" ++ nl
  ++ "- Can be slightly longer and more detailed than a standard script" ++ nl
  ++ "- Make it flow naturally when spoken aloud" ++ nl
  ++ branding_text ++ nl
  ++ nl
  ++ "Output only the voice script text.".

(** ** Text analysis *)

Definition count_words (text : string) : nat := List.length (split_ws text).

(** The loop over [lines]: the first line that is not blank, stripped; the
    empty string when the loop ends without assigning. *)
Fixpoint first_stripped (lines : list string) : string :=
  match lines with
  | [] => EmptyString
  | line :: rest =>
      if is_empty (strip line) then first_stripped rest else strip line
  end.

Definition extract_hook (script : string) : string :=
  let lines := split_on (ascii_of_nat 10) script in
  let first_line := strip (nth 0 lines EmptyString) in
  let first_line :=
    if is_empty first_line then first_stripped lines else first_line in
  let first_line :=
    if is_empty first_line then
      match split_on "."%char script with
      | [] => first_line
      | sentence :: _ => strip sentence ++ "."
      end
    else first_line in
  if is_empty first_line then take 100 script else first_line.

(** ** Calls to the completion endpoint *)

(** The [except Exception] clause shared by both generation functions. *)
Definition wrap_model_error {A : Type} (e : exn) : res A :=
  if contains "rate limit" (lower (exn_str e)) || contains "429" (exn_str e)
  then Raise (Exception "Rate limit exceeded")
  else Raise (Exception ("Model error: " ++ exn_str e)).

(** [model or MODEL_NAME] *)
Definition model_or_default (E : runtime) (model : value) : value :=
  if truthy model then model else VStr (MODEL_NAME E).

Definition script_call (E : runtime) (topic length tone hook_style : string)
  (max_tokens : Z) (word_count model : value) (brand_name : string)
  (include_branding : bool) : call :=
  mk_call (model_or_default E model)
    "You are an expert scriptwriter for short-form video content."
    (build_main_prompt E topic length tone hook_style word_count brand_name
       include_branding)
    max_tokens.

(** Returns [(script_text, tokens_used)], and the calls made so far. *)
Definition generate_script (E : runtime) (topic length tone hook_style : string)
  (max_tokens : Z) (word_count model : value) (brand_name : string)
  (include_branding : bool) (history : list call)
  : res (string * Z) * list call :=
  let c := script_call E topic length tone hook_style max_tokens word_count
             model brand_name include_branding in
  (match create E history c with
   | Completed content tokens_used =>
       let script_text := strip content in
       if tokens_used >? max_tokens
       then wrap_model_error
              (ValueError ("Generated " ++ of_Z tokens_used
                           ++ " tokens, exceeds limit of " ++ of_Z max_tokens))
       else Ok (script_text, tokens_used)
   | Failed msg => wrap_model_error (Exception msg)
   end,
   (history ++ [c])%list).

Definition voice_call (E : runtime) (topic tone : string)
  (voice_script_style model : value) (brand_name : string)
  (include_branding : bool) : call :=
  mk_call (model_or_default E model)
    "You are an expert voice scriptwriter for narration."
    (build_voice_script_prompt E topic tone voice_script_style brand_name
       include_branding)
    400.

(** Returns [(voice_script_text, tokens_used)], and the calls made so far. *)
Definition generate_voice_script (E : runtime) (topic tone : string)
  (voice_script_style model : value) (brand_name : string)
  (include_branding : bool) (history : list call)
  : res (string * Z) * list call :=
  let c := voice_call E topic tone voice_script_style model brand_name
             include_branding in
  (match create E history c with
   | Completed content tokens_used => Ok (strip content, tokens_used)
   | Failed msg => wrap_model_error (Exception msg)
   end,
   (history ++ [c])%list).

(** ** Authentication *)

(** [d.get(k)] as an object: [None] when the key is missing. *)
Definition get_or_none (d : dict) (k : string) : value :=
  match dict_get d k with Some v => v | None => VNull end.

(** [a or b] *)
Definition py_or (a b : value) : value := if truthy a then a else b.

(** [v == s] for a string [s] *)
Definition eq_str (v : value) (s : string) : bool :=
  match v with VStr s' => String.eqb s' s | _ => false end.

Definition validate_api_key (E : runtime) (headers : dict) : bool :=
  if is_empty (API_KEY E) then true
  else
    let api_key :=
      py_or (get_or_none headers "x-api-key") (get_or_none headers "X-Api-Key")
    in eq_str api_key (API_KEY E).

(** ** The web endpoint *)

(** What the handler reads from the request object: [json], absent when
    reading it raises, and the items of [headers], absent when there is no
    such attribute or reading it raises. *)
Record request : Type := mk_request {
  request_json : option value;
  request_headers : option (list (string * string))
}.

(** [{k.lower(): v for k, v in items}] *)
Definition lower_keys (items : dict) : dict :=
  dict_update [] (map (fun kv => (lower (fst kv), snd kv)) items).

(** The header map handed to [validate_api_key]: the transport headers, then
    the [headers] entry of the body on top of them. *)
Definition collect_headers (E : runtime) (r : request) (event : dict) : dict :=
  let headers :=
    match request_headers r with
    | Some items => lower_keys (map (fun kv => (fst kv, VStr (snd kv))) items)
    | None => []
    end in
  match dict_get event "headers" with
  | Some (VDict event_headers) => dict_update headers (lower_keys event_headers)
  | Some (VStr event_headers) =>
      match json_loads E event_headers with
      | Some (VDict parsed_headers) =>
          dict_update headers (lower_keys parsed_headers)
      | _ => headers
      end
  | _ => headers
  end.

Definition error_response (msg code : value) : dict :=
  [("error", msg); ("code", code)].

(** The two [except] clauses that close the handler. *)
Definition handle (e : exn) : dict :=
  match e with
  | ValueError msg => error_response (VStr msg) (VStr "VALIDATION_ERROR")
  | _ =>
      let error_msg := exn_str e in
      let error_code :=
        if contains "rate limit" (lower error_msg) || contains "429" error_msg
        then "RATE_LIMIT"
        else if contains "model" (lower error_msg) then "MODEL_ERROR"
        else "INTERNAL_ERROR" in
      error_response (VStr error_msg) (VStr error_code)
  end.

Definition of_option (o : option string) : value :=
  match o with Some s => VStr s | None => VNull end.

(** [d.get(k, default)] *)
Definition dict_get_default (d : dict) (k : string) (default : value) : value :=
  match dict_get d k with Some v => v | None => default end.

(** An [int] that validation has let through. *)
Definition int_of (v : value) : Z :=
  match as_int v with Some n => n | None => 0 end.

(** The items of a [dict]; validation lets nothing else through. *)
Definition items_of (v : value) : dict :=
  match v with VDict d => d | _ => [] end.

(** [type(v).__name__] *)
Definition type_name (v : value) : string :=
  match v with
  | VNull => "NoneType"
  | VBool _ => "bool"
  | VInt _ => "int"
  | VFloat _ => "float"
  | VStr _ => "str"
  | VList _ => "list"
  | VDict _ => "dict"
  end.

(** [f(...)] for an object [f] that came out of the request: it is no
    function, and calling it raises. *)
Definition call_object {A : Type} (f : value) : res A :=
  Raise (TypeError ("'" ++ type_name f ++ "' object is not callable")).

(** The part of the handler after validation has passed; [d] holds the
    items of the validated input.  The handler assigns the flag of the
    request to the name [generate_voice_script]; the assignment makes that
    name local to the handler, so the call in the voice branch applies the
    flag and not the function of the module. *)
Definition generate_validated (E : runtime) (d : dict) (history : list call)
  : dict * list call :=
  let topic := py_str E (get_or_none d "topic") in
  let length := get_or_none d "length" in
  let tone := py_str E (get_or_none d "tone") in
  let hook_style := py_str E (get_or_none d "hook_style") in
  let max_tokens := int_of (get_or_none d "max_tokens") in
  let word_count := get_or_none d "word_count" in
  let model := get_or_none d "model" in
  let brand_name :=
    py_str E (dict_get_default d "brand_name" (VStr "Autopostai.Video")) in
  let include_branding :=
    truthy (dict_get_default d "include_branding" (VBool true)) in
  let generate_voice_script :=
    dict_get_default d "generate_voice_script" (VBool false) in
  let voice_script_style := get_or_none d "voice_script_style" in
  match generate_script E topic (py_str E length) tone hook_style max_tokens
          word_count model brand_name include_branding history with
  | (Raise e, history1) => (handle e, history1)
  | (Ok (script, tokens_used), history1) =>
      let hook := extract_hook script in
      let word_count_actual := count_words script in
      let output : dict :=
        [("script", VStr script);
         ("hook", VStr hook);
         ("word_count", VInt (Z.of_nat word_count_actual));
         ("estimated_duration", length);
         ("tokens_used", VInt tokens_used)] in
      if truthy generate_voice_script then
        match (call_object generate_voice_script : res (string * Z)) with
        | Ok (voice_script, voice_tokens) =>
            let output := dict_set output "voice_script" (VStr voice_script) in
            let output :=
              dict_set output "voice_word_count"
                (VInt (Z.of_nat (count_words voice_script))) in
            let tokens_used := tokens_used + voice_tokens in
            (dict_set output "tokens_used" (VInt tokens_used), history1)
        | Raise e =>
            (dict_set output "voice_script_error" (VStr (exn_str e)), history1)
        end
      else (output, history1)
  end.

(** [event]: the decoded body, or an empty dict when reading it raises. *)
Definition request_event (r : request) : value :=
  match request_json r with Some v => v | None => VDict [] end.

(** The endpoint: what it returns (or the exception that escapes it) and the
    calls made to the completion endpoint, [history] being those made
    before. *)
Definition generate (E : runtime) (r : request) (history : list call)
  : res dict * list call :=
  match request_event r with
  | VDict event =>
      let headers := collect_headers E r event in
      if negb (validate_api_key E headers)
      then (Ok (error_response (VStr "Invalid API key") (VStr "AUTH_ERROR")),
            history)
      else
        let input_data := dict_get_default event "input" (VDict []) in
        if negb (truthy input_data)
        then (Ok (error_response (VStr "Missing 'input' field")
                    (VStr "VALIDATION_ERROR")), history)
        else
          match validate_input E input_data with
          | Raise e => (Ok (handle e), history)
          | Ok (is_valid, error_msg, error_code) =>
              if negb is_valid
              then (Ok (error_response (of_option error_msg)
                          (of_option error_code)), history)
              else
                let (output, history') :=
                  generate_validated E (items_of input_data) history in
                (Ok output, history')
          end
  | _ =>
      (* [event.get] raises AttributeError; the handler that catches it
         reads [request_id], which was never assigned *)
      (Raise (UnboundLocalError
                "local variable 'request_id' referenced before assignment"),
       history)
  end.

(** ** Notions used to state the properties *)

(** A runtime to evaluate on: the secret is "secret", sets print in the order
    given, and the endpoint is the one given. *)
Definition runtime_with (endpoint : list call -> call -> completion)
  : runtime :=
  mk_runtime "secret" "llama-3-8b"
    (fun S => "{'" ++ concat "', '" S ++ "'}")
    (fun _ => "?")
    (fun _ => None)
    endpoint.

(** The endpoint answers every call with the same text and 120 tokens. *)
Definition sample_runtime : runtime :=
  runtime_with
    (fun _ _ => Completed "Ever wondered why cats purr? Here is why." 120).

(** The endpoint answers every call with 151 tokens. *)
Definition overrun_runtime : runtime :=
  runtime_with (fun _ _ => Completed "Cats purr." 151).

(** A request carrying the given input and the secret in its headers. *)
Definition request_of (input : dict) : request :=
  mk_request (Some (VDict [("input", VDict input)]))
    (Some [("x-api-key", "secret")]).

(** The script call the handler makes for a validated input. *)
Definition request_script_call (E : runtime) (d : dict) : call :=
  script_call E (py_str E (get_or_none d "topic"))
    (py_str E (get_or_none d "length")) (py_str E (get_or_none d "tone"))
    (py_str E (get_or_none d "hook_style"))
    (int_of (get_or_none d "max_tokens")) (get_or_none d "word_count")
    (get_or_none d "model")
    (py_str E (dict_get_default d "brand_name" (VStr "Autopostai.Video")))
    (truthy (dict_get_default d "include_branding" (VBool true))).

(** The call [generate_voice_script] of the module makes when it is given the
    fields of a validated input. *)
Definition request_voice_call (E : runtime) (d : dict) : call :=
  voice_call E (py_str E (get_or_none d "topic"))
    (py_str E (get_or_none d "tone")) (get_or_none d "voice_script_style")
    (get_or_none d "model")
    (py_str E (dict_get_default d "brand_name" (VStr "Autopostai.Video")))
    (truthy (dict_get_default d "include_branding" (VBool true))).

(** The text of the exception a failed call ends up as. *)
Definition failure_text (msg : string) : string :=
  if contains "rate limit" (lower msg) || contains "429" msg
  then "Rate limit exceeded" else "Model error: " ++ msg.

(** The request of the first end-to-end scenario. *)
Definition sample_input : dict :=
  [("topic", VStr "cats"); ("length", VStr "30s"); ("tone", VStr "funny");
   ("hook_style", VStr "question"); ("max_tokens", VInt 150)].

(** The same request, asking for the voice script too. *)
Definition sample_voice_input : dict :=
  (sample_input ++ [("generate_voice_script", VBool true)])%list.

(** The required fields other than [max_tokens] are valid and [length] is
    the string [L]. *)
Definition other_fields_valid (d : dict) (L : string) : Prop :=
  (exists topic, dict_get d "topic" = Some topic /\ truthy topic = true)
  /\ dict_get d "length" = Some (VStr L)
  /\ In L VALID_LENGTHS
  /\ (exists tone, dict_get d "tone" = Some (VStr tone) /\ In tone VALID_TONES)
  /\ (exists style,
        dict_get d "hook_style" = Some (VStr style)
        /\ In style VALID_HOOK_STYLES).

(** A run of non-whitespace characters begins at position [i] of [s]: the
    character there is not whitespace, and it is the first one or follows a
    whitespace character. *)
Definition run_start (s : string) (i : nat) : bool :=
  match get i s with
  | Some c =>
      negb (isspace c)
      && match i with
         | O => true
         | S j => match get j s with Some p => isspace p | None => false end
         end
  | None => false
  end.

(** The number of maximal runs of non-whitespace characters of [s]: the
    number of positions at which one begins. *)
Definition nonspace_runs (s : string) : nat :=
  List.length (filter (run_start s) (seq 0 (String.length s))).

(** The same count read off from left to right, [prev_space] telling whether
    the scan is outside a run. *)
Fixpoint runs_after (prev_space : bool) (s : string) : nat :=
  match s with
  | EmptyString => 0
  | String c s' =>
      if isspace c then runs_after true s'
      else ((if prev_space then 1 else 0) + runs_after false s')%nat
  end.

(** [c] occurs in [s]. *)
Fixpoint has_char (c : ascii) (s : string) : bool :=
  match s with
  | EmptyString => false
  | String a s' => Ascii.eqb a c || has_char c s'
  end.

(** No end of [P] is a beginning of [sub] that stops short of it: no
    occurrence of [sub] can start inside [P] and run past its end. *)
Fixpoint no_left_border (sub P : string) : bool :=
  match P with
  | EmptyString => true
  | String _ P' =>
      negb (prefix P sub && (String.length P <? String.length sub)%nat)
      && no_left_border sub P'
  end.

(** No beginning of [Q] is a proper end of [sub]: no occurrence of [sub] can
    start before [Q] and end inside it. *)
Fixpoint no_right_border (sub Q : string) : bool :=
  match sub with
  | EmptyString => true
  | String _ sub' =>
      negb (negb (is_empty sub') && prefix sub' Q)
      && no_right_border sub' Q
  end.

(** The wording that sets the instruction of each hook style apart: the text
    of its template up to the topic. *)
Definition hook_fragments : list (string * string) :=
  [("question", "Start with a thought-provoking question about");
   ("shock", "Open with a surprising or shocking fact about");
   ("bold claim", "Make a bold, attention-grabbing statement about");
   ("story", "Begin with a brief, engaging story or anecdote related to")].

(** [p] holds the fragment of [style] exactly once and the fragment of no
    other style. *)
Definition only_fragment_of (style p : string) : Prop :=
  forall s f, In (s, f) hook_fragments ->
    occurrences f p = if String.eqb s style then 1%nat else 0%nat.

(** No hook fragment occurs in [text]. *)
Definition fragment_free (text : string) : Prop :=
  forall s f, In (s, f) hook_fragments -> occurrences f text = 0%nat.




(** Every character of [s] is whitespace. *)
Fixpoint blank (s : string) : bool :=
  match s with
  | EmptyString => true
  | String c s' => isspace c && blank s'
  end.

(** [s] begins, respectively ends, with a character that is not
    whitespace. *)
Definition starts_nonspace (s : string) : bool :=
  match s with
  | EmptyString => false
  | String c _ => negb (isspace c)
  end.

Fixpoint ends_nonspace (s : string) : bool :=
  match s with
  | EmptyString => false
  | String c EmptyString => negb (isspace c)
  | String _ s' => ends_nonspace s'
  end.

(** The lines of a text, as [split('\n')] gives them. *)
Definition lines_of (s : string) : list string := split_on (ascii_of_nat 10) s.

(** The first line that is not the empty string. *)
Definition first_nonempty_line (s : string) : option string :=
  find (fun line => negb (is_empty line)) (lines_of s).

(** The first line that holds a character other than whitespace. *)
Definition first_nonblank_line (s : string) : option string :=
  find (fun line => negb (blank line)) (lines_of s).

(** A request whose transport headers carry no key at all, while its body
    brings a [headers] entry with the secret. *)
Definition body_key_request : request :=
  mk_request
    (Some (VDict [("headers", VDict [("x-api-key", VStr "secret")]);
                  ("input", VDict sample_input)]))
    (Some []).

(** A request without a key anywhere. *)
Definition keyless_request : request :=
  mk_request (Some (VDict [("input", VDict sample_input)]))
    (Some [("content-type", "application/json")]).

(** Every required field of [d] is valid: what the seven rules of
    [validate_input] ask for. *)
Definition request_valid (d : dict) : Prop :=
  exists L c,
    other_fields_valid d L
    /\ assoc L LENGTH_TO_TOKENS = Some c
    /\ dict_get d "max_tokens" = Some (VInt c).

(** [o] is no value, or a falsy one: what makes [a or b] go on to [b]. *)
Definition falsy_or_absent (o : option value) : Prop :=
  match o with Some v => truthy v = false | None => True end.

(** The headers of the transport as a dict, before the names are
    lower-cased. *)
Definition transport_items (r : request) : dict :=
  match request_headers r with
  | Some items => map (fun kv => (fst kv, VStr (snd kv))) items
  | None => []
  end.

(** The value of the last of [items] whose lower-cased name is [k]. *)
Definition last_named (k : string) (items : dict) : option value :=
  assoc k (rev (map (fun kv => (lower (fst kv), snd kv)) items)).

(** The codes an error response can carry. *)
Definition ERROR_CODES : list string :=
  ["AUTH_ERROR"; "VALIDATION_ERROR"; "RATE_LIMIT"; "MODEL_ERROR";
   "INTERNAL_ERROR"].

(** The text of a failure tells of throttling. *)
Definition rate_limited (msg : string) : bool :=
  contains "rate limit" (lower msg) || contains "429" msg.

(** The response after a script alone. *)
Definition script_output (length : value) (script : string) (tokens : Z)
  : dict :=
  [("script", VStr script);
   ("hook", VStr (extract_hook script));
   ("word_count", VInt (Z.of_nat (count_words script)));
   ("estimated_duration", length);
   ("tokens_used", VInt tokens)].

(** * Properties *)

(** ** validate_input *)

Lemma existsb_eqb_In (s : string) (S : list string) :
  In s S -> existsb (String.eqb s) S = true.
Proof.
  intros H. apply existsb_exists. exists s. split; [exact H|].
  apply String.eqb_refl.
Qed.

Lemma as_int_large (v : value) (n : Z) :
  as_int v = Some n -> 1 < n -> v = VInt n.
Proof.
  destruct v; simpl; try discriminate.
  - destruct b; intros [= <-]; lia.
  - now intros [= ->].
Qed.

(** With the other fields valid, validation comes down to the token check. *)
Lemma validate_input_token_check (E : runtime) (d : dict) (L : string) :
  other_fields_valid d L ->
  validate_input E (VDict d) =
  match dict_get d "max_tokens" with
  | None => reject "Field 'max_tokens' is required"
  | Some max_tokens =>
      match as_int max_tokens with
      | None => reject "Field 'max_tokens' must be a positive integer"
      | Some n =>
          if n <=? 0
          then reject "Field 'max_tokens' must be a positive integer"
          else if negb (opt_Z_eqb n (assoc L LENGTH_TO_TOKENS))
          then reject ("Field 'max_tokens' must be "
                       ++ fmt_opt_Z (assoc L LENGTH_TO_TOKENS)
                       ++ " for length '" ++ L ++ "'")
          else Ok (true, None, None)
      end
  end.
Proof.
  intros [[topic [Ht Htt]] [Hl [HL [[tone [Hto HT]] [style [Hs HS]]]]]].
  unfold validate_input.
  rewrite Ht, Htt, Hl, Hto, Hs. simpl negb. cbv iota.
  unfold in_str_set, table_get, hash_check, bind.
  rewrite (existsb_eqb_In _ _ HL), (existsb_eqb_In _ _ HT),
    (existsb_eqb_In _ _ HS).
  reflexivity.
Qed.

(** C1. When [length] is one of the four labels and the other required
    fields are valid, the request is accepted exactly when [max_tokens] is
    the integer the table 20s->100, 30s->150, 45s->225, 60s->300 gives for
    that label; every other positive integer is rejected with code
    VALIDATION_ERROR and a message that names the expected value. *)
Theorem validate_input_tokens_match_length
  (E : runtime) (d : dict) (L : string) (c : Z) :
  other_fields_valid d L ->
  assoc L [("20s", 100); ("30s", 150); ("45s", 225); ("60s", 300)] = Some c ->
  (validate_input E (VDict d) = Ok (true, None, None)
   <-> dict_get d "max_tokens" = Some (VInt c))
  /\ (forall max_tokens n,
        dict_get d "max_tokens" = Some max_tokens ->
        as_int max_tokens = Some n -> 0 < n -> n <> c ->
        validate_input E (VDict d) =
        Ok (false,
            Some ("Field 'max_tokens' must be " ++ of_Z c
                  ++ " for length '" ++ L ++ "'"),
            Some "VALIDATION_ERROR")).
Proof.
  intros Hv Hc.
  rewrite (validate_input_token_check E d L Hv).
  change (assoc L LENGTH_TO_TOKENS = Some c) in Hc. rewrite Hc.
  assert (Hbig : 1 < c).
  { destruct Hv as [_ [_ [HL _]]]. simpl in HL.
    destruct HL as [<-|[<-|[<-|[<-|[]]]]]; simpl in Hc;
      injection Hc as <-; lia. }
  split.
  - split.
    + destruct (dict_get d "max_tokens") as [mt|]; [|discriminate].
      destruct (as_int mt) as [n|] eqn:Hn; [|discriminate].
      destruct (n <=? 0); [discriminate|].
      simpl opt_Z_eqb. destruct (n =? c) eqn:Hnc; [|discriminate].
      intros _. apply Z.eqb_eq in Hnc. subst n.
      now rewrite (as_int_large _ _ Hn Hbig).
    + intros ->. simpl as_int. cbv iota.
      destruct (c <=? 0) eqn:Hle; [apply Z.leb_le in Hle; lia|].
      simpl opt_Z_eqb. now rewrite Z.eqb_refl.
  - intros mt n Hmt Hn Hpos Hne. rewrite Hmt, Hn.
    destruct (n <=? 0) eqn:Hle; [apply Z.leb_le in Hle; lia|].
    simpl opt_Z_eqb. apply Z.eqb_neq in Hne. now rewrite Hne.
Qed.

Lemma validate_input_tokens_match_length_witness :
  (validate_input sample_runtime (VDict sample_input) = Ok (true, None, None)
   <-> dict_get sample_input "max_tokens" = Some (VInt 150))
  /\ (forall max_tokens n,
        dict_get sample_input "max_tokens" = Some max_tokens ->
        as_int max_tokens = Some n -> 0 < n -> n <> 150 ->
        validate_input sample_runtime (VDict sample_input) =
        Ok (false,
            Some ("Field 'max_tokens' must be " ++ of_Z 150
                  ++ " for length '" ++ "30s" ++ "'"),
            Some "VALIDATION_ERROR")).
Proof.
  apply (validate_input_tokens_match_length sample_runtime sample_input
           "30s" 150).
  - repeat split.
    + exists (VStr "cats"). split; reflexivity.
    + simpl. tauto.
    + exists "funny". split; [reflexivity | simpl; tauto].
    + exists "question". split; [reflexivity | simpl; tauto].
  - reflexivity.
Defined.

Lemma in_str_set_returns (v : value) (S : list string) :
  hash_check v = Ok tt -> exists b, in_str_set v S = Ok b.
Proof.
  intros H. unfold in_str_set. rewrite H.
  destruct v; simpl; eexists; reflexivity.
Qed.

Lemma table_get_returns {A : Type} (T : list (string * A)) (v : value) :
  hash_check v = Ok tt -> exists o, table_get T v = Ok o.
Proof.
  intros H. unfold table_get. rewrite H.
  destruct v; simpl; eexists; reflexivity.
Qed.

(** Validation returns a verdict whenever the values under [length], [tone]
    and [hook_style] can be hashed, whatever the other fields hold. *)
Lemma validate_input_returns (E : runtime) (input_data : value) :
  (forall d k v, input_data = VDict d ->
     In k ["length"; "tone"; "hook_style"] ->
     dict_get d k = Some v -> hash_check v = Ok tt) ->
  exists r, validate_input E input_data = Ok r.
Proof.
  intros H.
  destruct input_data as [| | | | |l|d]; try (eexists; reflexivity).
  specialize (H d). unfold validate_input, reject.
  destruct (dict_get d "topic") as [topic|]; [|eexists; reflexivity].
  destruct (negb (truthy topic)); [eexists; reflexivity|].
  destruct (dict_get d "length") as [len|] eqn:Hl; [|eexists; reflexivity].
  assert (Hhl : hash_check len = Ok tt)
    by (apply (H "length"); simpl; auto).
  destruct (in_str_set_returns len VALID_LENGTHS Hhl) as [ok ->].
  cbn [bind]. destruct (negb ok); [eexists; reflexivity|].
  destruct (dict_get d "tone") as [tone|] eqn:Ht; [|eexists; reflexivity].
  assert (Hht : hash_check tone = Ok tt)
    by (apply (H "tone"); simpl; auto).
  destruct (in_str_set_returns tone VALID_TONES Hht) as [ok' ->].
  cbn [bind]. destruct (negb ok'); [eexists; reflexivity|].
  destruct (dict_get d "hook_style") as [style|] eqn:Hs;
    [|eexists; reflexivity].
  assert (Hhs : hash_check style = Ok tt)
    by (apply (H "hook_style"); simpl; auto).
  destruct (in_str_set_returns style VALID_HOOK_STYLES Hhs) as [ok'' ->].
  cbn [bind]. destruct (negb ok''); [eexists; reflexivity|].
  destruct (dict_get d "max_tokens") as [mt|]; [|eexists; reflexivity].
  destruct (as_int mt) as [n|]; [|eexists; reflexivity].
  destruct (n <=? 0); [eexists; reflexivity|].
  destruct (table_get_returns LENGTH_TO_TOKENS len Hhl) as [ex ->].
  cbn [bind]. destruct (negb (opt_Z_eqb n ex)); eexists; reflexivity.
Qed.

(** C9. Validation is not total on dictionaries of JSON values: when
    [length] holds a list, the membership test in the set of lengths raises
    TypeError instead of returning a verdict, and the handler then answers
    INTERNAL_ERROR rather than VALIDATION_ERROR. *)
Theorem validate_input_raises_on_list_length :
  (forall E,
     validate_input E
       (VDict [("topic", VStr "cats"); ("length", VList [VStr "30s"])])
     = Raise (TypeError "unhashable type: 'list'"))
  /\ generate sample_runtime
       (mk_request
          (Some (VDict [("input",
                         VDict [("topic", VStr "cats");
                                ("length", VList [VStr "30s"])])]))
          (Some [("x-api-key", "secret")])) []
     = (Ok [("error", VStr "unhashable type: 'list'");
            ("code", VStr "INTERNAL_ERROR")], []).
Proof.
  split; [intros E|]; reflexivity.
Qed.

(** ** count_words *)

Lemma split_ws_from_length (w s : string) :
  List.length (split_ws_from w s)
  = ((if is_empty w then 0 else 1) + runs_after (is_empty w) s)%nat.
Proof.
  revert w. induction s as [|c s IH]; intros w; simpl.
  - destruct (is_empty w); reflexivity.
  - destruct (isspace c).
    + destruct (is_empty w) eqn:Hw; simpl; rewrite IH; reflexivity.
    + rewrite IH.
      assert (Hne : is_empty (w ++ String c EmptyString) = false)
        by (destruct w; reflexivity).
      rewrite Hne. destruct (is_empty w); simpl; lia.
Qed.

Lemma filter_seq_shift (f : nat -> bool) (a n : nat) :
  List.length (filter f (seq (S a) n))
  = List.length (filter (fun i => f (S i)) (seq a n)).
Proof.
  revert a. induction n as [|n IH]; intros a; simpl; [reflexivity|].
  destruct (f (S a)); simpl; rewrite IH; reflexivity.
Qed.

Lemma filter_length_cons (f : nat -> bool) (a : nat) (l : list nat) :
  List.length (filter f (a :: l))
  = ((if f a then 1 else 0) + List.length (filter f l))%nat.
Proof. simpl. destruct (f a); reflexivity. Qed.

Lemma runs_after_positions (p : ascii) (s : string) :
  List.length
    (filter (fun i => run_start (String p s) (S i)) (seq 0 (String.length s)))
  = runs_after (isspace p) s.
Proof.
  revert p. induction s as [|c s IH]; intros p; [reflexivity|].
  cbn [String.length seq]. rewrite filter_length_cons, filter_seq_shift.
  assert (H1 : run_start (String p (String c s)) 1
               = negb (isspace c) && isspace p) by reflexivity.
  rewrite H1.
  rewrite (filter_ext (fun i => run_start (String p (String c s)) (S (S i)))
             (fun i => run_start (String c s) (S i)))
    by (intros i; reflexivity).
  rewrite IH. cbn [runs_after].
  destruct (isspace c), (isspace p); reflexivity.
Qed.

Lemma nonspace_runs_scan (s : string) : nonspace_runs s = runs_after true s.
Proof.
  unfold nonspace_runs. destruct s as [|c s]; [reflexivity|].
  cbn [String.length seq]. rewrite filter_length_cons, filter_seq_shift.
  assert (H0 : run_start (String c s) 0 = negb (isspace c)).
  { unfold run_start. simpl. apply andb_true_r. }
  rewrite H0, runs_after_positions. cbn [runs_after].
  destruct (isspace c); reflexivity.
Qed.

(** C8. [count_words] is the number of maximal runs of non-whitespace
    characters; the empty text has none, and "a b  c" has three, the doubled
    blank adding nothing. *)
Theorem count_words_is_nonspace_runs :
  (forall t, count_words t = nonspace_runs t)
  /\ count_words "" = 0%nat
  /\ count_words "a b  c" = 3%nat.
Proof.
  split; [|split; reflexivity].
  intros t. unfold count_words, split_ws.
  rewrite split_ws_from_length, nonspace_runs_scan. reflexivity.
Qed.

(** ** Strings: concatenation, prefixes, occurrences *)

Lemma append_assoc (a b c : string) : (a ++ b) ++ c = a ++ b ++ c.
Proof. induction a as [|x a IH]; simpl; [reflexivity | now rewrite IH]. Qed.

Lemma append_empty_r (a : string) : a ++ "" = a.
Proof. induction a as [|x a IH]; simpl; [reflexivity | now rewrite IH]. Qed.

Lemma length_append (a b : string) :
  String.length (a ++ b) = (String.length a + String.length b)%nat.
Proof. induction a as [|x a IH]; simpl; [reflexivity | now rewrite IH]. Qed.

Lemma prefix_empty (s : string) : prefix "" s = true.
Proof. destruct s; reflexivity. Qed.

Lemma prefix_of_empty (p : string) : prefix p "" = is_empty p.
Proof. destruct p; reflexivity. Qed.

Lemma prefix_cons (a b : ascii) (p s : string) :
  prefix (String a p) (String b s) = Ascii.eqb a b && prefix p s.
Proof.
  simpl. destruct (ascii_dec a b) as [->|Hne].
  - now rewrite Ascii.eqb_refl.
  - apply Ascii.eqb_neq in Hne. now rewrite Hne.
Qed.

Lemma prefix_append (p r : string) : prefix p (p ++ r) = true.
Proof.
  induction p as [|x p IH]; [apply prefix_empty|].
  cbn [append]. now rewrite prefix_cons, Ascii.eqb_refl.
Qed.

Lemma prefix_append_r (p x r : string) :
  prefix p x = true -> prefix p (x ++ r) = true.
Proof.
  revert p. induction x as [|c x IH]; intros p H.
  - rewrite prefix_of_empty in H. destruct p; [apply prefix_empty|discriminate].
  - destruct p as [|a p]; [reflexivity|].
    cbn [append]. rewrite prefix_cons in *.
    apply andb_true_iff in H as [-> H]. now rewrite (IH _ H).
Qed.

(** A prefix of [x ++ r] lies within [x] or runs past its end. *)
Lemma prefix_append_inv (p x r : string) :
  prefix p (x ++ r) = true ->
  prefix p x = true
  \/ exists p2, p = x ++ p2 /\ is_empty p2 = false /\ prefix p2 r = true.
Proof.
  revert p. induction x as [|c x IH]; intros p H.
  - destruct p as [|a p]; [left; reflexivity|].
    right. exists (String a p). auto.
  - destruct p as [|a p]; [left; reflexivity|].
    cbn [append] in H. rewrite prefix_cons in H.
    apply andb_true_iff in H as [Hc H]. apply Ascii.eqb_eq in Hc. subst c.
    destruct (IH _ H) as [Hp|[p2 [-> [Hne Hp2]]]].
    + left. now rewrite prefix_cons, Ascii.eqb_refl.
    + right. exists p2. auto.
Qed.

Lemma occurrences_empty (sub : string) :
  is_empty sub = false -> occurrences sub "" = 0%nat.
Proof. destruct sub; [discriminate | reflexivity]. Qed.

Lemma has_char_append (c : ascii) (a b : string) :
  has_char c (a ++ b) = has_char c a || has_char c b.
Proof.
  induction a as [|x a IH]; simpl; [reflexivity|].
  now rewrite IH, orb_assoc.
Qed.

Lemma no_right_border_spec (sub Q x p2 : string) :
  no_right_border sub Q = true ->
  sub = x ++ p2 -> is_empty x = false -> is_empty p2 = false ->
  prefix p2 Q = false.
Proof.
  revert sub. induction x as [|c x IH]; intros sub Hb -> Hx Hp2;
    [discriminate|].
  cbn [append no_right_border] in Hb.
  apply andb_true_iff in Hb as [H1 H2].
  destruct x as [|c' x].
  - cbn [append] in H1. rewrite Hp2 in H1. simpl in H1.
    now apply negb_true_iff in H1.
  - now apply (IH _ H2 eq_refl).
Qed.

(** Occurrences split at a literal on the left that no occurrence can
    straddle. *)
Lemma occurrences_left (sub P R : string) :
  is_empty sub = false -> no_left_border sub P = true ->
  occurrences sub (P ++ R) = (occurrences sub P + occurrences sub R)%nat.
Proof.
  intros Hne. induction P as [|c P IH]; intros Hb.
  - now rewrite (occurrences_empty _ Hne).
  - cbn [no_left_border] in Hb. apply andb_true_iff in Hb as [H1 H2].
    apply negb_true_iff in H1.
    cbn [append]. cbn [occurrences]. rewrite (IH H2).
    change (String c (P ++ R)) with (String c P ++ R).
    assert (Hp : prefix sub (String c P ++ R) = prefix sub (String c P)).
    { destruct (prefix sub (String c P ++ R)) eqn:Ha.
      - destruct (prefix_append_inv _ _ _ Ha) as [Hp|[p2 [-> [Hp2 _]]]];
          [now rewrite Hp|].
        rewrite prefix_append in H1. simpl andb in H1.
        apply Nat.ltb_ge in H1. rewrite length_append in H1.
        destruct p2; [discriminate|]. simpl in H1. lia.
      - destruct (prefix sub (String c P)) eqn:Hp; [|reflexivity].
        now rewrite (prefix_append_r _ _ R Hp) in Ha. }
    rewrite Hp. lia.
Qed.

(** Occurrences split at a literal on the right that no occurrence can
    straddle. *)
Lemma occurrences_right (sub X Q : string) :
  is_empty sub = false -> no_right_border sub Q = true ->
  occurrences sub (X ++ Q) = (occurrences sub X + occurrences sub Q)%nat.
Proof.
  intros Hne Hb. induction X as [|c X IH].
  - now rewrite (occurrences_empty _ Hne).
  - cbn [append]. cbn [occurrences]. rewrite IH.
    change (String c (X ++ Q)) with (String c X ++ Q).
    assert (Hp : prefix sub (String c X ++ Q) = prefix sub (String c X)).
    { destruct (prefix sub (String c X ++ Q)) eqn:Ha.
      - destruct (prefix_append_inv _ _ _ Ha) as [Hp|[p2 [Hs [Hp2 Hq]]]];
          [now rewrite Hp|].
        now rewrite (no_right_border_spec _ _ _ _ Hb Hs eq_refl Hp2) in Hq.
      - destruct (prefix sub (String c X)) eqn:Hp; [|reflexivity].
        now rewrite (prefix_append_r _ _ Q Hp) in Ha. }
    rewrite Hp. lia.
Qed.

(** Occurrences split at a character that [sub] does not contain. *)
Lemma occurrences_sep (sub X R : string) (c : ascii) :
  is_empty sub = false -> has_char c sub = false ->
  occurrences sub (X ++ String c R)
  = (occurrences sub X + occurrences sub R)%nat.
Proof.
  intros Hne Hc.
  assert (Hhead : prefix sub (String c R) = false).
  { destruct sub as [|a sub]; [discriminate|].
    rewrite prefix_cons. simpl in Hc. apply orb_false_iff in Hc as [-> _].
    reflexivity. }
  induction X as [|x X IH].
  - rewrite (occurrences_empty _ Hne). cbn [append occurrences].
    now rewrite Hhead.
  - cbn [append]. cbn [occurrences]. rewrite IH.
    change (String x (X ++ String c R)) with (String x X ++ String c R).
    assert (Hp : prefix sub (String x X ++ String c R)
                 = prefix sub (String x X)).
    { destruct (prefix sub (String x X ++ String c R)) eqn:Ha.
      - destruct (prefix_append_inv _ _ _ Ha) as [Hp|[p2 [-> [Hp2 Hq]]]];
          [now rewrite Hp|].
        destruct p2 as [|a p2]; [discriminate|].
        rewrite prefix_cons in Hq. apply andb_true_iff in Hq as [Hq _].
        rewrite has_char_append in Hc. simpl in Hc. rewrite Hq in Hc.
        simpl in Hc. now rewrite orb_true_r in Hc.
      - destruct (prefix sub (String x X)) eqn:Hp; [|reflexivity].
        now rewrite (prefix_append_r _ _ (String c R) Hp) in Ha. }
    rewrite Hp. lia.
Qed.

Lemma occurrences_free_nl (sub X R : string) :
  is_empty sub = false -> has_char (ascii_of_nat 10) sub = false ->
  occurrences sub (X ++ nl ++ R)
  = (occurrences sub X + occurrences sub R)%nat.
Proof. intros Hne Hc. exact (occurrences_sep sub X R _ Hne Hc). Qed.

Lemma occurrences_free_lit_nl (sub X Q R : string) :
  is_empty sub = false -> has_char (ascii_of_nat 10) sub = false ->
  no_right_border sub Q = true ->
  occurrences sub (X ++ Q ++ nl ++ R)
  = (occurrences sub X + occurrences sub Q + occurrences sub R)%nat.
Proof.
  intros Hne Hc Hb.
  rewrite <- append_assoc, (occurrences_free_nl _ _ _ Hne Hc).
  now rewrite (occurrences_right _ _ _ Hne Hb).
Qed.

Lemma occurrences_free_about (sub X R : string) :
  is_empty sub = false -> has_char ":"%char sub = false ->
  no_right_border sub " video script about" = true ->
  occurrences sub (X ++ " video script about: " ++ R)
  = (occurrences sub X + occurrences sub " video script about"
     + occurrences sub (" " ++ R))%nat.
Proof.
  intros Hne Hc Hb.
  change (" video script about: " ++ R)
    with (" video script about" ++ String ":" (" " ++ R)).
  rewrite <- append_assoc, (occurrences_sep _ _ _ _ Hne Hc).
  now rewrite (occurrences_right _ _ _ Hne Hb).
Qed.

(** The same splits for a running count [a], to be applied from the left. *)
Lemma count_start (sub S : string) (N : nat) :
  (0 + occurrences sub S)%nat = N -> occurrences sub S = N.
Proof. exact (fun H => H). Qed.

Lemma count_literal (a : nat) (sub P R : string) (n N : nat) :
  is_empty sub = false -> no_left_border sub P = true ->
  (a + occurrences sub P)%nat = n ->
  (n + occurrences sub R)%nat = N ->
  (a + occurrences sub (P ++ R))%nat = N.
Proof.
  intros Hne Hb <- <-. rewrite (occurrences_left _ _ _ Hne Hb). lia.
Qed.

Lemma count_text_nl (a : nat) (sub X R : string) (N : nat) :
  is_empty sub = false -> has_char (ascii_of_nat 10) sub = false ->
  occurrences sub X = 0%nat ->
  (a + occurrences sub R)%nat = N ->
  (a + occurrences sub (X ++ nl ++ R))%nat = N.
Proof.
  intros Hne Hc HX <-. rewrite (occurrences_free_nl _ _ _ Hne Hc). lia.
Qed.

Lemma count_text_literal_nl (a : nat) (sub X Q R : string) (n N : nat) :
  is_empty sub = false -> has_char (ascii_of_nat 10) sub = false ->
  no_right_border sub Q = true ->
  occurrences sub X = 0%nat ->
  (a + occurrences sub Q)%nat = n ->
  (n + occurrences sub R)%nat = N ->
  (a + occurrences sub (X ++ Q ++ nl ++ R))%nat = N.
Proof.
  intros Hne Hc Hb HX <- <-.
  rewrite (occurrences_free_lit_nl _ _ _ _ Hne Hc Hb). lia.
Qed.

Lemma count_text_about (a : nat) (sub X R : string) (n N : nat) :
  is_empty sub = false -> has_char ":"%char sub = false ->
  no_right_border sub " video script about" = true ->
  occurrences sub X = 0%nat ->
  (a + occurrences sub " video script about")%nat = n ->
  (n + occurrences sub (" " ++ R))%nat = N ->
  (a + occurrences sub (X ++ " video script about: " ++ R))%nat = N.
Proof.
  intros Hne Hc Hb HX <- <-.
  rewrite (occurrences_free_about _ _ _ Hne Hc Hb). lia.
Qed.

Ltac side := vm_compute; reflexivity.

(** One step of counting, from the left: a literal, a text followed by a
    line break, a text followed by a literal and a line break, the length
    within the first line. *)
Ltac count_step :=
  lazymatch goal with
  | |- (_ + occurrences _ (append _ _))%nat = _ =>
      first
        [ eapply count_literal; [side | side | side | ]
        | eapply count_text_nl; [side | side | eassumption | ]
        | eapply count_text_literal_nl;
          [side | side | side | eassumption | side | ]
        | eapply count_text_about;
          [side | side | side | eassumption | side | ] ]
  end.

Ltac count_all := apply count_start; repeat count_step; try side.

Lemma get_default_cases {A : Type} (T : list (string * A)) (k : string)
  (d : A) :
  get_default T k d = d \/ In (get_default T k d) (map snd T).
Proof.
  unfold get_default. induction T as [|[k' a] T IH]; simpl; [now left|].
  destruct (String.eqb k k'); [right; now left|].
  destruct IH as [IH|IH]; [now left | right; now right].
Qed.

(** ** build_main_prompt and the hook styles *)

Lemma build_hook_prompt_shape (topic style tone frag : string) :
  In (style, frag) hook_fragments ->
  build_hook_prompt topic style tone = frag ++ " " ++ topic.
Proof.
  intros H. simpl in H.
  destruct H as [[= <- <-]|[[= <- <-]|[[= <- <-]|[[= <- <-]|[]]]]];
    reflexivity.
Qed.

Lemma tone_line_fragment_free (s f tone R : string) :
  In (s, f) hook_fragments ->
  occurrences f
    (get_default main_tone_instructions tone "neutral"
     ++ " tone throughout" ++ nl ++ R)
  = occurrences f R.
Proof.
  intros H. simpl in H.
  destruct (get_default_cases main_tone_instructions tone "neutral")
    as [->|Ht].
  - destruct H as [[= <- <-]|[[= <- <-]|[[= <- <-]|[[= <- <-]|[]]]]];
      count_all.
  - simpl in Ht.
    destruct Ht as [<-|[<-|[<-|[<-|[<-|[<-|[]]]]]]];
      destruct H as [[= <- <-]|[[= <- <-]|[[= <- <-]|[[= <- <-]|[]]]]];
      count_all.
Qed.

Lemma table_words_fragment_free (length : string) :
  fragment_free (get_default LENGTH_TO_WORDS length "30-50").
Proof.
  intros s f H. simpl in H.
  destruct (get_default_cases LENGTH_TO_WORDS length "30-50") as [->|Ht].
  - destruct H as [[= <- <-]|[[= <- <-]|[[= <- <-]|[[= <- <-]|[]]]]];
      reflexivity.
  - simpl in Ht.
    destruct Ht as [<-|[<-|[<-|[<-|[]]]]];
      destruct H as [[= <- <-]|[[= <- <-]|[[= <- <-]|[[= <- <-]|[]]]]];
      reflexivity.
Qed.

(** C6 as stated fails: a topic that quotes the wording of another style
    brings that style's fragment into the prompt. *)
Lemma main_prompt_foreign_fragment :
  ~ only_fragment_of "question"
      (build_main_prompt sample_runtime
         "Open with a surprising or shocking fact about dogs"
         "30s" "funny" "question" VNull "Autopostai.Video" true).
Proof.
  intros H.
  specialize (H "shock" "Open with a surprising or shocking fact about").
  vm_compute in H. discriminate H. simpl. tauto.
Qed.

(** C6, amended. For each of the four hook styles, the instruction is the
    style's fragment followed by the topic, and the main prompt holds that
    fragment exactly once and no other style's fragment, provided no
    fragment occurs in the texts the caller supplies: topic, length, the
    word-count override when one is used, and the brand name when branding
    is on. *)
Theorem main_prompt_only_own_fragment
  (E : runtime) (topic length tone style : string) (word_count : value)
  (brand_name : string) (include_branding : bool) :
  In style VALID_HOOK_STYLES ->
  fragment_free topic ->
  fragment_free length ->
  (truthy word_count = true -> fragment_free (py_str E word_count)) ->
  (include_branding = true -> fragment_free brand_name) ->
  (forall frag, In (style, frag) hook_fragments ->
     build_hook_prompt topic style tone = frag ++ " " ++ topic)
  /\ only_fragment_of style
       (build_main_prompt E topic length tone style word_count brand_name
          include_branding).
Proof.
  intros Hstyle Htopic Hlength Hwc Hbrand.
  split; [intros frag; apply build_hook_prompt_shape|].
  intros s f Hin.
  cbv beta zeta delta [build_main_prompt].
  set (wr := if truthy word_count then py_str E word_count
             else get_default LENGTH_TO_WORDS length "30-50").
  assert (Hwr : occurrences f wr = 0%nat).
  { subst wr. destruct (truthy word_count).
    - now apply (Hwc eq_refl s).
    - now apply (table_words_fragment_free length s). }
  pose proof (Htopic s f Hin) as Ht.
  pose proof (Hlength s f Hin) as Hl.
  pose proof (fun R => tone_line_fragment_free s f tone R Hin) as Htone.
  assert (Hb : include_branding = true -> occurrences f brand_name = 0%nat)
    by (intros Hi; now apply (Hbrand Hi s)).
  clearbody wr. clear Htopic Hlength Hwc Hbrand.
  assert (Hhook : exists frag, In (style, frag) hook_fragments).
  { simpl in Hstyle.
    destruct Hstyle as [<-|[<-|[<-|[<-|[]]]]]; eexists; simpl; eauto 6. }
  destruct Hhook as [frag Hfrag].
  rewrite (build_hook_prompt_shape topic style tone frag Hfrag).
  simpl in Hin, Hfrag.
  destruct include_branding; cbv beta iota delta [main_branding_text];
    [specialize (Hb eq_refl)|clear Hb];
    rewrite !append_assoc;
    destruct Hfrag as [[= <- <-]|[[= <- <-]|[[= <- <-]|[[= <- <-]|[]]]]];
    destruct Hin as [[= <- <-]|[[= <- <-]|[[= <- <-]|[[= <- <-]|[]]]]];
    apply count_start;
    repeat first
      [ lazymatch goal with
        | |- (_ + occurrences _ (get_default _ _ _ ++ _))%nat = _ =>
            rewrite Htone
        end
      | count_step ];
    side.
Qed.

Lemma main_prompt_only_own_fragment_witness :
  (forall frag, In ("question", frag) hook_fragments ->
     build_hook_prompt "cats" "question" "funny" = frag ++ " " ++ "cats")
  /\ only_fragment_of "question"
       (build_main_prompt sample_runtime "cats" "30s" "funny" "question"
          VNull "Autopostai.Video" true).
Proof.
  apply (main_prompt_only_own_fragment sample_runtime "cats" "30s" "funny"
           "question" VNull "Autopostai.Video" true).
  - simpl. tauto.
  - intros s f H. simpl in H.
    destruct H as [[= <- <-]|[[= <- <-]|[[= <- <-]|[[= <- <-]|[]]]]];
      reflexivity.
  - intros s f H. simpl in H.
    destruct H as [[= <- <-]|[[= <- <-]|[[= <- <-]|[[= <- <-]|[]]]]];
      reflexivity.
  - simpl. discriminate.
  - intros _ s f H. simpl in H.
    destruct H as [[= <- <-]|[[= <- <-]|[[= <- <-]|[[= <- <-]|[]]]]];
      reflexivity.
Defined.

(** ** Branding *)









(** ** The word-count override *)

(** C10. A word-count override that is falsy - the empty string, None, zero,
    an empty list - gives the very prompt that an absent override gives: the
    target line carries the range the table holds for the length, 30-50 for
    a length outside the table. *)
Theorem falsy_word_count_falls_back_to_table
  (E : runtime) (topic length tone style : string) (word_count : value)
  (brand_name : string) (include_branding : bool) :
  truthy word_count = false ->
  build_main_prompt E topic length tone style word_count brand_name
    include_branding
  = build_main_prompt E topic length tone style VNull brand_name
      include_branding
  /\ exists pre post,
       build_main_prompt E topic length tone style word_count brand_name
         include_branding
       = pre ++ "- Target word count: "
         ++ get_default
              [("20s", "30-50"); ("30s", "45-75"); ("45s", "70-110");
               ("60s", "90-150")] length "30-50"
         ++ " words" ++ nl ++ post.
Proof.
  intros Hf. split.
  - unfold build_main_prompt. rewrite Hf. reflexivity.
  - exists ("Generate a " ++ length ++ " video script about: " ++ topic ++ nl
            ++ nl ++ "Requirements:" ++ nl
            ++ "- " ++ build_hook_prompt topic style tone ++ nl
            ++ "- Maintain a "
            ++ get_default main_tone_instructions tone "neutral"
            ++ " tone throughout" ++ nl).
    eexists.
    unfold build_main_prompt. rewrite Hf.
    change LENGTH_TO_WORDS
      with [("20s", "30-50"); ("30s", "45-75"); ("45s", "70-110");
            ("60s", "90-150")].
    rewrite ?append_assoc. reflexivity.
Qed.

Lemma falsy_word_count_falls_back_to_table_witness :
  build_main_prompt sample_runtime "cats" "30s" "funny" "question" (VStr "")
    "Autopostai.Video" true
  = build_main_prompt sample_runtime "cats" "30s" "funny" "question" VNull
      "Autopostai.Video" true.
Proof.
  exact (proj1 (falsy_word_count_falls_back_to_table sample_runtime "cats"
                  "30s" "funny" "question" (VStr "") "Autopostai.Video" true
                  eq_refl)).
Defined.

(** ** extract_hook *)

Lemma lstrip_blank (s : string) : is_empty (lstrip s) = blank s.
Proof.
  induction s as [|c s IH]; [reflexivity|]. simpl.
  destruct (isspace c); [exact IH | reflexivity].
Qed.

Lemma rstrip_blank (s : string) : is_empty (rstrip s) = blank s.
Proof.
  induction s as [|c s IH]; [reflexivity|]. simpl.
  destruct (rstrip s); simpl in *; rewrite <- IH.
  - destruct (isspace c); reflexivity.
  - now rewrite andb_false_r.
Qed.

Lemma blank_lstrip (s : string) : blank (lstrip s) = blank s.
Proof.
  induction s as [|c s IH]; [reflexivity|]. simpl.
  destruct (isspace c) eqn:Hc; [exact IH|]. simpl. now rewrite Hc.
Qed.

Lemma strip_blank (s : string) : is_empty (strip s) = blank s.
Proof. unfold strip. now rewrite rstrip_blank, blank_lstrip. Qed.

Lemma lstrip_split (s : string) :
  exists a, s = a ++ lstrip s /\ blank a = true
            /\ (is_empty (lstrip s) = false ->
                starts_nonspace (lstrip s) = true).
Proof.
  induction s as [|c s [a [Hs [Ha Hn]]]].
  - exists "". repeat split; auto; discriminate.
  - simpl. destruct (isspace c) eqn:Hc.
    + exists (String c a). simpl. rewrite Hc, Ha. repeat split; auto.
      now rewrite <- Hs.
    + exists "". simpl. rewrite Hc. auto.
Qed.

Lemma rstrip_split (s : string) :
  exists b, s = rstrip s ++ b /\ blank b = true
            /\ (is_empty (rstrip s) = false -> ends_nonspace (rstrip s) = true)
            /\ starts_nonspace (rstrip s)
               = starts_nonspace s && negb (is_empty (rstrip s)).
Proof.
  induction s as [|c s [b [Hs [Hb [Hn _]]]]].
  - exists "". repeat split; auto.
  - simpl. destruct (rstrip s) as [|r rs] eqn:Hr.
    + simpl in Hs. subst b. destruct (isspace c) eqn:Hc.
      * exists (String c s). simpl. rewrite Hc, Hb.
        repeat split; auto; discriminate.
      * exists s. simpl. rewrite Hc. repeat split; auto.
    + exists b. split; [simpl; f_equal; exact Hs|].
      split; [exact Hb|]. split.
      * intros _. cbn [ends_nonspace]. now apply Hn.
      * simpl. now rewrite andb_true_r.
Qed.

(** [strip] removes whitespace at both ends and nothing else. *)
Lemma strip_split (s : string) :
  blank s = false ->
  exists a b, s = a ++ strip s ++ b /\ blank a = true /\ blank b = true
              /\ starts_nonspace (strip s) = true
              /\ ends_nonspace (strip s) = true.
Proof.
  intros Hs.
  destruct (lstrip_split s) as [a [Ha [Hba Hst]]].
  destruct (rstrip_split (lstrip s)) as [b [Hb [Hbb [Hen Hst']]]].
  assert (Hne : is_empty (strip s) = false) by now rewrite strip_blank.
  exists a, b. unfold strip in *.
  repeat split; auto.
  - now rewrite <- Hb.
  - rewrite Hst', Hne, Hst; [reflexivity|].
    now rewrite lstrip_blank.
Qed.

Lemma first_stripped_find (ls : list string) :
  first_stripped ls
  = match find (fun line => negb (blank line)) ls with
    | Some line => strip line
    | None => ""
    end.
Proof.
  induction ls as [|l ls IH]; [reflexivity|]. simpl.
  rewrite strip_blank. destruct (blank l); simpl; [exact IH | reflexivity].
Qed.

Lemma split_on_nonempty (c : ascii) (s : string) : split_on c s <> [].
Proof.
  induction s as [|x s IH]; simpl; [discriminate|].
  destruct (Ascii.eqb x c); [discriminate|].
  destruct (split_on c s); discriminate.
Qed.

(** What the handler's first two steps compute. *)
Lemma extract_hook_first_line (script : string) :
  (let lines := split_on (ascii_of_nat 10) script in
   let first_line := strip (nth 0 lines "") in
   if is_empty first_line then first_stripped lines else first_line)
  = first_stripped (lines_of script).
Proof.
  unfold lines_of. cbv zeta.
  destruct (split_on (ascii_of_nat 10) script) as [|l ls] eqn:Hl.
  - now apply split_on_nonempty in Hl.
  - simpl. destruct (is_empty (strip l)) eqn:He; rewrite ?He; reflexivity.
Qed.

Lemma extract_hook_unfold (script : string) :
  extract_hook script
  = let first_line := first_stripped (lines_of script) in
    let first_line :=
      if is_empty first_line then
        match split_on "."%char script with
        | [] => first_line
        | sentence :: _ => strip sentence ++ "."
        end
      else first_line in
    if is_empty first_line then take 100 script else first_line.
Proof.
  unfold extract_hook. cbv zeta.
  pose proof (extract_hook_first_line script) as H. cbv zeta in H.
  rewrite H. reflexivity.
Qed.

Lemma blank_lines (s : string) :
  blank s = true -> forall l, In l (lines_of s) -> blank l = true.
Proof.
  unfold lines_of. induction s as [|c s IH]; intros Hb l Hl.
  - destruct Hl as [<-|[]]. reflexivity.
  - simpl in Hb. apply andb_true_iff in Hb as [Hc Hb].
    simpl in Hl. destruct (Ascii.eqb c (ascii_of_nat 10)).
    + destruct Hl as [<-|Hl]; [reflexivity | now apply IH].
    + destruct (split_on (ascii_of_nat 10) s) as [|w ws].
      * destruct Hl as [<-|[]]. simpl. now rewrite Hc.
      * destruct Hl as [<-|Hl].
        -- simpl. rewrite Hc. apply (IH Hb). now left.
        -- apply (IH Hb). now right.
Qed.

Lemma lines_blank (s : string) :
  (forall l, In l (lines_of s) -> blank l = true) -> blank s = true.
Proof.
  unfold lines_of. induction s as [|c s IH]; intros H; [reflexivity|].
  simpl in H. simpl.
  destruct (Ascii.eqb c (ascii_of_nat 10)) eqn:Hc.
  - apply Ascii.eqb_eq in Hc. subst c.
    rewrite IH; [reflexivity|]. intros l Hl. apply H. now right.
  - destruct (split_on (ascii_of_nat 10) s) as [|w ws] eqn:Hw.
    + now apply split_on_nonempty in Hw.
    + pose proof (H _ (or_introl eq_refl)) as H0. simpl in H0.
      apply andb_true_iff in H0 as [-> Hbw]. simpl.
      apply IH. intros l [<-|Hl]; [exact Hbw|]. apply H. now right.
Qed.

Lemma first_nonblank_none (s : string) :
  first_nonblank_line s = None <-> blank s = true.
Proof.
  unfold first_nonblank_line. split.
  - intros H. apply lines_blank. intros l Hl.
    apply (find_none _ _ H) in Hl. now apply negb_false_iff in Hl.
  - intros Hb. pose proof (blank_lines s Hb) as H.
    induction (lines_of s) as [|l ls IH]; [reflexivity|].
    simpl. rewrite (H l (or_introl eq_refl)). simpl.
    apply IH. intros l' Hl'. apply H. now right.
Qed.

Lemma split_on_absent (c : ascii) (s : string) :
  has_char c s = false -> split_on c s = [s].
Proof.
  induction s as [|x s IH]; [reflexivity|]. simpl.
  intros H. apply orb_false_iff in H as [Hx Hs].
  rewrite Hx, (IH Hs). reflexivity.
Qed.

Lemma blank_no_period (s : string) :
  blank s = true -> has_char "."%char s = false.
Proof.
  induction s as [|x s IH]; [reflexivity|]. simpl.
  intros H. apply andb_true_iff in H as [Hx Hs]. rewrite (IH Hs).
  destruct (Ascii.eqb x ".") eqn:He; [|reflexivity].
  apply Ascii.eqb_eq in He. subst x. discriminate Hx.
Qed.

(** When no line holds anything but whitespace - the empty text included -
    the hook is a lone period: the sentence fallback appends it to the empty
    string, and the last fallback, the first 100 characters, is never
    reached. *)
Lemma extract_hook_blank (s : string) :
  first_nonblank_line s = None -> extract_hook s = ".".
Proof.
  intros H. rewrite extract_hook_unfold, first_stripped_find.
  unfold first_nonblank_line in H. rewrite H. cbv zeta. simpl is_empty.
  cbv iota.
  apply first_nonblank_none in H.
  rewrite (split_on_absent _ _ (blank_no_period _ H)).
  assert (Hs : strip s = "").
  { pose proof (strip_blank s) as Hb. rewrite H in Hb.
    destruct (strip s); [reflexivity | discriminate]. }
  rewrite Hs. reflexivity.
Qed.

(** C4 as stated fails: the hook is not the first non-empty line itself when
    that line carries whitespace at an end. *)
Lemma extract_hook_not_first_nonempty_line :
  first_nonempty_line ("Hello " ++ nl ++ "World") = Some "Hello "
  /\ extract_hook ("Hello " ++ nl ++ "World") <> "Hello ".
Proof. split; [reflexivity | discriminate]. Qed.

(** C4, amended. When some line of the text holds a character other than
    whitespace, the hook is the first such line with the whitespace at its
    two ends removed, and nothing else removed. *)
Theorem extract_hook_first_nonblank_line (s line : string) :
  first_nonblank_line s = Some line ->
  extract_hook s = strip line
  /\ exists a b, line = a ++ extract_hook s ++ b
                 /\ blank a = true /\ blank b = true
                 /\ starts_nonspace (extract_hook s) = true
                 /\ ends_nonspace (extract_hook s) = true.
Proof.
  intros H.
  assert (Hb : blank line = false).
  { unfold first_nonblank_line in H. apply find_some in H as [_ H].
    now apply negb_true_iff in H. }
  assert (He : extract_hook s = strip line).
  { rewrite extract_hook_unfold, first_stripped_find.
    unfold first_nonblank_line in H. rewrite H. cbv zeta.
    rewrite strip_blank, Hb. cbv iota. now rewrite strip_blank, Hb. }
  split; [exact He|]. rewrite He. now apply strip_split.
Qed.

Lemma extract_hook_first_nonblank_line_witness :
  extract_hook ("Hello " ++ nl ++ "World") = strip "Hello ".
Proof.
  exact (proj1 (extract_hook_first_nonblank_line ("Hello " ++ nl ++ "World")
                  "Hello " eq_refl)).
Defined.

(** ** The handler *)

Lemma validated_is_nonempty (E : runtime) (d : dict) (v : verdict) :
  validate_input E (VDict d) = Ok v -> fst (fst v) = true ->
  truthy (VDict d) = true.
Proof.
  destruct d as [|kv d]; [|reflexivity].
  simpl. intros [= <-]. discriminate.
Qed.

(** What the handler does once authentication and validation have passed. *)
Lemma generate_on_valid_input
  (E : runtime) (r : request) (history : list call) (event d : dict) :
  request_event r = VDict event ->
  validate_api_key E (collect_headers E r event) = true ->
  dict_get event "input" = Some (VDict d) ->
  validate_input E (VDict d) = Ok (true, None, None) ->
  generate E r history
  = (Ok (fst (generate_validated E d history)),
     snd (generate_validated E d history)).
Proof.
  intros He Ha Hi Hv. unfold generate, dict_get_default.
  rewrite He, Ha, Hi. cbn [negb].
  rewrite (validated_is_nonempty E d _ Hv eq_refl), Hv. cbn [negb items_of].
  destruct (generate_validated E d history). reflexivity.
Qed.

(** A body that is not a JSON object makes the handler itself raise: the
    clause that would report the error reads [request_id] before any
    assignment to it. *)
Lemma generate_non_object_body
  (E : runtime) (r : request) (history : list call) :
  (forall event, request_event r <> VDict event) ->
  exists e, generate E r history = (Raise e, history).
Proof.
  intros H. unfold generate.
  destruct (request_event r) as [| | | | | |event];
    try (eexists; reflexivity).
  now destruct (H event).
Qed.

Lemma lower_append (a b : string) : lower (a ++ b) = lower a ++ lower b.
Proof. induction a as [|x a IH]; simpl; [reflexivity | now rewrite IH]. Qed.

Lemma handle_wrapped_code (e : exn) :
  exists msg code,
    wrap_model_error (A := string * Z) e = Raise (Exception msg)
    /\ handle (Exception msg) = error_response (VStr msg) (VStr code)
    /\ (code = "MODEL_ERROR" \/ code = "RATE_LIMIT").
Proof.
  unfold wrap_model_error.
  destruct (contains "rate limit" (lower (exn_str e))
            || contains "429" (exn_str e)).
  - exists "Rate limit exceeded", "RATE_LIMIT". repeat split. now right.
  - exists ("Model error: " ++ exn_str e).
    cbn [handle exn_str]. rewrite lower_append.
    destruct (contains "rate limit" (lower "Model error: " ++ lower (exn_str e))
              || contains "429" ("Model error: " ++ exn_str e)).
    + exists "RATE_LIMIT". repeat split. now right.
    + exists "MODEL_ERROR". repeat split. now left.
Qed.

(** Whenever the script call reports more tokens than requested, the
    handler answers with an error response whose code is MODEL_ERROR or
    RATE_LIMIT: the ValueError is raised inside the [try] whose
    [except Exception] turns it into a plain exception, so the
    [except ValueError] clause of the handler never sees it. *)
Lemma token_overrun_response
  (E : runtime) (r : request) (history : list call) (event d : dict)
  (content : string) (tokens : Z) :
  request_event r = VDict event ->
  validate_api_key E (collect_headers E r event) = true ->
  dict_get event "input" = Some (VDict d) ->
  validate_input E (VDict d) = Ok (true, None, None) ->
  create E history (request_script_call E d) = Completed content tokens ->
  int_of (get_or_none d "max_tokens") < tokens ->
  exists msg code,
    generate E r history
    = (Ok [("error", VStr msg); ("code", VStr code)],
       (history ++ [request_script_call E d])%list)
    /\ (code = "MODEL_ERROR" \/ code = "RATE_LIMIT").
Proof.
  intros He Ha Hi Hv Hc Hlt.
  rewrite (generate_on_valid_input E r history event d He Ha Hi Hv).
  unfold generate_validated, generate_script.
  fold (request_script_call E d). rewrite Hc.
  apply Z.gtb_lt in Hlt. rewrite Hlt.
  destruct (handle_wrapped_code
              (ValueError ("Generated " ++ of_Z tokens
                           ++ " tokens, exceeds limit of "
                           ++ of_Z (int_of (get_or_none d "max_tokens")))))
    as [msg [code [Hw [Hh Hcode]]]].
  exists msg, code. split; [|exact Hcode].
  rewrite Hw. cbn [fst snd]. now rewrite Hh.
Qed.

(** C2. A script call that reports 151 tokens for a budget of 150 does end
    the request with an error response and no partial result, but the code
    is MODEL_ERROR, not VALIDATION_ERROR. *)
Theorem token_overrun_reported_as_model_error :
  generate overrun_runtime (request_of sample_input) []
  = (Ok [("error",
          VStr "Model error: Generated 151 tokens, exceeds limit of 150");
         ("code", VStr "MODEL_ERROR")],
     [request_script_call overrun_runtime sample_input]).
Proof. vm_compute. reflexivity. Qed.

(** C3. When the voice script was asked for and the script call succeeds
    within its budget, the voice step fails - the handler calls the flag of
    the request, which hides the function of that name - and the failure
    stays in its own field: the handler returns the success response with
    script, hook and word count, the text of the failure under
    voice_script_error, no voice_script, and neither error nor code; the
    endpoint is not called a second time. *)
Theorem voice_failure_is_isolated
  (E : runtime) (r : request) (history : list call) (event d : dict)
  (content : string) (tokens : Z) :
  request_event r = VDict event ->
  validate_api_key E (collect_headers E r event) = true ->
  dict_get event "input" = Some (VDict d) ->
  validate_input E (VDict d) = Ok (true, None, None) ->
  truthy (dict_get_default d "generate_voice_script" (VBool false)) = true ->
  create E history (request_script_call E d) = Completed content tokens ->
  tokens <= int_of (get_or_none d "max_tokens") ->
  exists output,
    generate E r history
    = (Ok output, (history ++ [request_script_call E d])%list)
    /\ dict_get output "script" = Some (VStr (strip content))
    /\ dict_get output "hook" = Some (VStr (extract_hook (strip content)))
    /\ dict_get output "word_count"
       = Some (VInt (Z.of_nat (count_words (strip content))))
    /\ dict_get output "voice_script_error"
       = Some (VStr ("'"
                     ++ type_name
                          (dict_get_default d "generate_voice_script"
                             (VBool false))
                     ++ "' object is not callable"))
    /\ dict_get output "voice_script" = None
    /\ dict_get output "error" = None
    /\ dict_get output "code" = None.
Proof.
  intros He Ha Hi Hv Hg Hc Hle.
  rewrite (generate_on_valid_input E r history event d He Ha Hi Hv).
  unfold generate_validated, generate_script.
  fold (request_script_call E d). rewrite Hc.
  assert (Hgt : (tokens >? int_of (get_or_none d "max_tokens")) = false).
  { destruct (tokens >? _) eqn:H; [|reflexivity].
    apply Z.gtb_lt in H. lia. }
  rewrite Hgt, Hg. unfold call_object. cbn [fst snd exn_str].
  eexists. split; [reflexivity|]. repeat split; reflexivity.
Qed.

Lemma voice_failure_is_isolated_witness :
  exists output,
    generate sample_runtime (request_of sample_voice_input) []
    = (Ok output,
       ([] ++ [request_script_call sample_runtime sample_voice_input])%list)
    /\ dict_get output "script"
       = Some (VStr (strip "Ever wondered why cats purr? Here is why."))
    /\ dict_get output "hook"
       = Some (VStr (extract_hook
                       (strip "Ever wondered why cats purr? Here is why.")))
    /\ dict_get output "word_count"
       = Some (VInt (Z.of_nat
                       (count_words
                          (strip "Ever wondered why cats purr? Here is why."))))
    /\ dict_get output "voice_script_error"
       = Some (VStr ("'"
                     ++ type_name
                          (dict_get_default sample_voice_input
                             "generate_voice_script" (VBool false))
                     ++ "' object is not callable"))
    /\ dict_get output "voice_script" = None
    /\ dict_get output "error" = None
    /\ dict_get output "code" = None.
Proof.
  apply (voice_failure_is_isolated sample_runtime
           (request_of sample_voice_input) []
           [("input", VDict sample_voice_input)] sample_voice_input
           "Ever wondered why cats purr? Here is why." 120);
    try reflexivity.
  vm_compute. discriminate.
Defined.

(** ** Authentication *)

Lemma get_or_none_str (d : dict) (k s : string) :
  get_or_none d k = VStr s -> dict_get d k = Some (VStr s).
Proof.
  unfold get_or_none. destruct (dict_get d k); [now intros ->|discriminate].
Qed.

Lemma eq_str_true (v : value) (s : string) :
  eq_str v s = true -> v = VStr s.
Proof.
  destruct v; try discriminate. simpl. intros H.
  apply String.eqb_eq in H. now subst.
Qed.

(** The key check fails when neither spelling of the header holds the
    secret. *)
Lemma validate_api_key_rejects (E : runtime) (headers : dict) :
  is_empty (API_KEY E) = false ->
  dict_get headers "x-api-key" <> Some (VStr (API_KEY E)) ->
  dict_get headers "X-Api-Key" <> Some (VStr (API_KEY E)) ->
  validate_api_key E headers = false.
Proof.
  intros Hk H1 H2. unfold validate_api_key. rewrite Hk.
  destruct (eq_str _ _) eqn:He; [|reflexivity].
  apply eq_str_true in He. unfold py_or in He.
  destruct (truthy (get_or_none headers "x-api-key"));
    apply get_or_none_str in He; contradiction.
Qed.

(** C5 as stated fails: the transport headers of this request carry no
    x-api-key, yet the handler does not answer AUTH_ERROR and does call the
    endpoint, because the body supplies the header. *)
Lemma body_headers_authenticate :
  API_KEY sample_runtime = "secret"
  /\ request_headers body_key_request = Some []
  /\ fst (generate sample_runtime body_key_request [])
     <> Ok (error_response (VStr "Invalid API key") (VStr "AUTH_ERROR"))
  /\ snd (generate sample_runtime body_key_request []) <> [].
Proof.
  repeat split; try reflexivity; vm_compute; discriminate.
Qed.

(** C5, amended. With a secret configured and a body that is a JSON object
    (or cannot be read), the handler answers AUTH_ERROR and leaves the
    endpoint alone whenever the header map it assembles - the transport
    headers with lower-cased names, overridden by the [headers] entry of the
    body - holds the secret under neither spelling of x-api-key; with no
    secret configured the key check passes for every header map. *)
Theorem missing_api_key_is_rejected (E : runtime) :
  (forall r event history,
     request_event r = VDict event ->
     is_empty (API_KEY E) = false ->
     dict_get (collect_headers E r event) "x-api-key"
     <> Some (VStr (API_KEY E)) ->
     dict_get (collect_headers E r event) "X-Api-Key"
     <> Some (VStr (API_KEY E)) ->
     generate E r history
     = (Ok [("error", VStr "Invalid API key"); ("code", VStr "AUTH_ERROR")],
        history))
  /\ (is_empty (API_KEY E) = true ->
      forall headers, validate_api_key E headers = true).
Proof.
  split.
  - intros r event history He Hk H1 H2. unfold generate.
    rewrite He, (validate_api_key_rejects E _ Hk H1 H2). reflexivity.
  - intros Hk headers. unfold validate_api_key. now rewrite Hk.
Qed.

Lemma missing_api_key_is_rejected_witness :
  generate sample_runtime keyless_request []
  = (Ok [("error", VStr "Invalid API key"); ("code", VStr "AUTH_ERROR")], []).
Proof.
  apply (proj1 (missing_api_key_is_rejected sample_runtime) keyless_request
           [("input", VDict sample_input)] []).
  - reflexivity.
  - reflexivity.
  - vm_compute. discriminate.
  - vm_compute. discriminate.
Defined.

(** * Further properties of the code *)

(** ** validate_input: verdicts *)

Lemma existsb_eqb_true (s : string) (S : list string) :
  existsb (String.eqb s) S = true -> In s S.
Proof.
  intros H. apply existsb_exists in H as [x [Hx He]].
  apply String.eqb_eq in He. now subst.
Qed.

Lemma in_str_set_true (v : value) (S : list string) :
  in_str_set v S = Ok true -> exists s, v = VStr s /\ In s S.
Proof.
  destruct v; try discriminate. simpl. intros [= H].
  exists s. split; [reflexivity | now apply existsb_eqb_true].
Qed.

Lemma in_str_set_raise (v : value) (S : list string) (e : exn) :
  in_str_set v S = Raise e ->
  e = TypeError "unhashable type: 'list'"
  \/ e = TypeError "unhashable type: 'dict'".
Proof. destruct v; simpl; intros [= <-]; auto. Qed.

(** Unfold one membership test of the validator. *)
Ltac split_membership H :=
  match goal with
  | |- context [in_str_set ?v ?S] =>
      let ok := fresh "ok" in
      let e := fresh "e" in
      destruct (in_str_set v S) as [ok|e] eqn:H; cbn [bind];
      [destruct ok; cbn [negb]|]
  end.

Lemma validate_input_verdict_cases
  (E : runtime) (input_data : value) (v : verdict) :
  validate_input E input_data = Ok v ->
  v = (true, None, None)
  \/ exists msg, v = (false, Some msg, Some "VALIDATION_ERROR").
Proof.
  unfold validate_input, reject.
  destruct input_data as [| | | | | |d];
    try (intros [= <-]; right; eexists; reflexivity).
  destruct (dict_get d "topic") as [topic|];
    [|intros [= <-]; right; eexists; reflexivity].
  destruct (negb (truthy topic));
    [intros [= <-]; right; eexists; reflexivity|].
  destruct (dict_get d "length") as [len|];
    [|intros [= <-]; right; eexists; reflexivity].
  split_membership Hl; [| intros [= <-]; right; eexists; reflexivity
                        | discriminate].
  destruct (dict_get d "tone") as [tone|];
    [|intros [= <-]; right; eexists; reflexivity].
  split_membership Ht; [| intros [= <-]; right; eexists; reflexivity
                        | discriminate].
  destruct (dict_get d "hook_style") as [style|];
    [|intros [= <-]; right; eexists; reflexivity].
  split_membership Hs; [| intros [= <-]; right; eexists; reflexivity
                        | discriminate].
  destruct (dict_get d "max_tokens") as [mt|];
    [|intros [= <-]; right; eexists; reflexivity].
  destruct (as_int mt) as [n|];
    [|intros [= <-]; right; eexists; reflexivity].
  destruct (n <=? 0); [intros [= <-]; right; eexists; reflexivity|].
  destruct (table_get LENGTH_TO_TOKENS len) as [ex|e]; cbn [bind];
    [|discriminate].
  destruct (negb (opt_Z_eqb n ex)); intros [= <-];
    [right; eexists; reflexivity | now left].
Qed.

(** X1. Whenever validation returns, the verdict is the acceptance
    (True, None, None) or a rejection (False, message, "VALIDATION_ERROR"):
    no other code and no rejection without a message. *)
Theorem validate_input_verdict_shape
  (E : runtime) (input_data : value) (v : verdict) :
  validate_input E input_data = Ok v ->
  v = (true, None, None)
  \/ exists msg, v = (false, Some msg, Some "VALIDATION_ERROR").
Proof. exact (validate_input_verdict_cases E input_data v). Qed.

Lemma validate_input_verdict_shape_witness :
  (false, Some "Field 'tone' is required", Some "VALIDATION_ERROR")
  = (true, None, None)
  \/ exists msg,
       (false, Some "Field 'tone' is required", Some "VALIDATION_ERROR")
       = (false, Some msg, Some "VALIDATION_ERROR").
Proof.
  apply (validate_input_verdict_shape sample_runtime
           (VDict [("topic", VStr "cats"); ("length", VStr "30s")])).
  reflexivity.
Defined.

Lemma validate_input_accepted (E : runtime) (input_data : value) :
  validate_input E input_data = Ok (true, None, None) ->
  exists d, input_data = VDict d /\ request_valid d.
Proof.
  - unfold validate_input, reject.
    destruct input_data as [| | | | | |d]; try discriminate.
    destruct (dict_get d "topic") as [topic|] eqn:Htopic; [|discriminate].
    destruct (truthy topic) eqn:Htruthy; cbn [negb]; [|discriminate].
    destruct (dict_get d "length") as [len|] eqn:Hlen; [|discriminate].
    split_membership Hl; [|discriminate|discriminate].
    destruct (dict_get d "tone") as [tone|] eqn:Htone; [|discriminate].
    split_membership Ht; [|discriminate|discriminate].
    destruct (dict_get d "hook_style") as [style|] eqn:Hstyle;
      [|discriminate].
    split_membership Hs; [|discriminate|discriminate].
    destruct (dict_get d "max_tokens") as [mt|] eqn:Hmt; [|discriminate].
    destruct (as_int mt) as [n|] eqn:Hn; [|discriminate].
    destruct (n <=? 0) eqn:Hpos; [discriminate|].
    apply in_str_set_true in Hl as [L [-> HL]].
    apply in_str_set_true in Ht as [T [-> HT]].
    apply in_str_set_true in Hs as [S [-> HS]].
    cbn [table_get hash_check bind].
    destruct (assoc L LENGTH_TO_TOKENS) as [c|] eqn:Hc; cbn [opt_Z_eqb negb];
      [|discriminate].
    destruct (n =? c) eqn:Hnc; cbn [negb]; [|discriminate].
    intros _. apply Z.eqb_eq in Hnc. subst n.
    exists d. split; [reflexivity|]. exists L, c.
    assert (Hbig : 1 < c).
    { simpl in HL. destruct HL as [<-|[<-|[<-|[<-|[]]]]]; simpl in Hc;
        injection Hc as <-; lia. }
    rewrite (as_int_large _ _ Hn Hbig) in Hmt.
    repeat split; eauto.
Qed.

(** X2. Validation accepts exactly the dictionaries in which topic is
    truthy, length, tone and hook_style are strings of their sets, and
    max_tokens is the integer the table gives for the length. *)
Theorem validate_input_accepts_iff (E : runtime) (input_data : value) :
  validate_input E input_data = Ok (true, None, None)
  <-> exists d, input_data = VDict d /\ request_valid d.
Proof.
  split; [apply validate_input_accepted|].
  - intros [d [-> [L [c [Hv [Hc Hmt]]]]]].
    rewrite (validate_input_token_check E d L Hv), Hmt, Hc.
    cbn [as_int opt_Z_eqb].
    assert (Hbig : 1 < c).
    { destruct Hv as [_ [_ [HL _]]]. simpl in HL.
      destruct HL as [<-|[<-|[<-|[<-|[]]]]]; simpl in Hc;
        injection Hc as <-; lia. }
    destruct (c <=? 0) eqn:Hle; [apply Z.leb_le in Hle; lia|].
    now rewrite Z.eqb_refl.
Qed.

Lemma validate_input_accepts_iff_witness :
  exists d, VDict sample_input = VDict d /\ request_valid d.
Proof.
  apply (proj1 (validate_input_accepts_iff sample_runtime (VDict sample_input))).
  reflexivity.
Defined.

Lemma table_get_raise {A : Type} (T : list (string * A)) (v : value)
  (e : exn) :
  table_get T v = Raise e ->
  e = TypeError "unhashable type: 'list'"
  \/ e = TypeError "unhashable type: 'dict'".
Proof. destruct v; simpl; intros [= <-]; auto. Qed.

(** The only exception that leaves the validator is the TypeError of a set
    lookup, and only a non-empty dictionary can cause it. *)
Lemma validate_input_raise (E : runtime) (input_data : value) (e : exn) :
  validate_input E input_data = Raise e ->
  (e = TypeError "unhashable type: 'list'"
   \/ e = TypeError "unhashable type: 'dict'")
  /\ truthy input_data = true.
Proof.
  unfold validate_input, reject.
  destruct input_data as [| | | | | |d]; try discriminate.
  destruct (dict_get d "topic") as [topic|] eqn:Htopic; [|discriminate].
  assert (Hd : truthy (VDict d) = true) by (destruct d; [discriminate|reflexivity]).
  destruct (negb (truthy topic)); [discriminate|].
  destruct (dict_get d "length") as [len|]; [|discriminate].
  split_membership Hl;
    [| discriminate
     | intros [= <-]; split; [now apply in_str_set_raise in Hl | exact Hd]].
  destruct (dict_get d "tone") as [tone|]; [|discriminate].
  split_membership Ht;
    [| discriminate
     | intros [= <-]; split; [now apply in_str_set_raise in Ht | exact Hd]].
  destruct (dict_get d "hook_style") as [style|]; [|discriminate].
  split_membership Hs;
    [| discriminate
     | intros [= <-]; split; [now apply in_str_set_raise in Hs | exact Hd]].
  destruct (dict_get d "max_tokens") as [mt|]; [|discriminate].
  destruct (as_int mt) as [n|]; [|discriminate].
  destruct (n <=? 0); [discriminate|].
  destruct (table_get LENGTH_TO_TOKENS len) as [ex|e'] eqn:Hg; cbn [bind].
  - destruct (negb (opt_Z_eqb n ex)); discriminate.
  - intros [= <-]. split; [now apply table_get_raise in Hg | exact Hd].
Qed.

(** X3. When validation raises, the exception is the TypeError of hashing a
    list or a dict, and a handler that got past the key check answers
    INTERNAL_ERROR with that text, without calling the endpoint. *)
Theorem validation_exception_is_internal_error
  (E : runtime) (r : request) (history : list call) (event : dict)
  (input_data : value) (e : exn) :
  request_event r = VDict event ->
  validate_api_key E (collect_headers E r event) = true ->
  dict_get event "input" = Some input_data ->
  validate_input E input_data = Raise e ->
  (e = TypeError "unhashable type: 'list'"
   \/ e = TypeError "unhashable type: 'dict'")
  /\ generate E r history
     = (Ok [("error", VStr (exn_str e)); ("code", VStr "INTERNAL_ERROR")],
        history).
Proof.
  intros He Ha Hi Hr.
  destruct (validate_input_raise E input_data e Hr) as [Hty Htr].
  split; [exact Hty|].
  unfold generate, dict_get_default. rewrite He, Ha, Hi, Htr, Hr.
  cbn [negb]. destruct Hty as [-> | ->]; reflexivity.
Qed.

Lemma validation_exception_is_internal_error_witness :
  (TypeError "unhashable type: 'dict'"
   = TypeError "unhashable type: 'list'"
   \/ TypeError "unhashable type: 'dict'"
      = TypeError "unhashable type: 'dict'")
  /\ generate sample_runtime
       (request_of [("topic", VStr "cats"); ("length", VStr "30s");
                    ("tone", VDict [])]) []
     = (Ok [("error", VStr (exn_str (TypeError "unhashable type: 'dict'")));
            ("code", VStr "INTERNAL_ERROR")], []).
Proof.
  apply (validation_exception_is_internal_error sample_runtime
           (request_of [("topic", VStr "cats"); ("length", VStr "30s");
                        ("tone", VDict [])]) []
           [("input",
             VDict [("topic", VStr "cats"); ("length", VStr "30s");
                    ("tone", VDict [])])]
           (VDict [("topic", VStr "cats"); ("length", VStr "30s");
                   ("tone", VDict [])]));
    reflexivity.
Defined.

(** ** Prompt builders: fallbacks *)

Lemma assoc_absent {A : Type} (k : string) (T : list (string * A)) :
  ~ In k (map fst T) -> assoc k T = None.
Proof.
  induction T as [|[k' a] T IH]; [reflexivity|]. simpl. intros H.
  destruct (String.eqb k k') eqn:He.
  - apply String.eqb_eq in He. subst. destruct H. now left.
  - apply IH. intros Hin. apply H. now right.
Qed.

Lemma get_default_absent {A : Type} (k : string) (T : list (string * A))
  (d : A) :
  ~ In k (map fst T) -> get_default T k d = d.
Proof. intros H. unfold get_default. now rewrite (assoc_absent k T H). Qed.

(** X4. A hook style outside the four gets the instruction of the question
    style, and the tone argument plays no part in the instruction. *)
Theorem build_hook_prompt_fallback (topic style tone tone' : string) :
  ~ In style VALID_HOOK_STYLES ->
  build_hook_prompt topic style tone
  = "Start with a thought-provoking question about " ++ topic
  /\ build_hook_prompt topic style tone
     = build_hook_prompt topic "question" tone'.
Proof.
  intros H. unfold build_hook_prompt.
  rewrite (get_default_absent style (hook_instructions topic)) by exact H.
  split; reflexivity.
Qed.

Lemma build_hook_prompt_fallback_witness :
  build_hook_prompt "cats" "mystery" "funny"
  = "Start with a thought-provoking question about " ++ "cats"
  /\ build_hook_prompt "cats" "mystery" "funny"
     = build_hook_prompt "cats" "question" "serious".
Proof.
  apply (build_hook_prompt_fallback "cats" "mystery" "funny" "serious").
  simpl. intros [H|[H|[H|[H|[]]]]]; discriminate H.
Defined.

(** X5. A tone outside the six is not given the instruction of the neutral
    tone: its line reads "Maintain a neutral tone throughout", where the
    tone "neutral" itself gets "Maintain a Use a balanced, informative tone
    tone throughout"; the rest of the two prompts is the same. *)
Theorem main_prompt_unknown_tone
  (E : runtime) (topic length tone style : string) (word_count : value)
  (brand_name : string) (include_branding : bool) :
  ~ In tone VALID_TONES ->
  exists pre post,
    build_main_prompt E topic length tone style word_count brand_name
      include_branding
    = pre ++ "- Maintain a neutral tone throughout" ++ nl ++ post
    /\ build_main_prompt E topic length "neutral" style word_count brand_name
         include_branding
       = pre ++ "- Maintain a Use a balanced, informative tone tone throughout"
         ++ nl ++ post.
Proof.
  intros H.
  exists ("Generate a " ++ length ++ " video script about: " ++ topic ++ nl
          ++ nl ++ "Requirements:" ++ nl
          ++ "- " ++ build_hook_prompt topic style "" ++ nl).
  eexists. unfold build_main_prompt.
  rewrite (get_default_absent tone main_tone_instructions) by exact H.
  split; rewrite ?append_assoc; reflexivity.
Qed.

Lemma main_prompt_unknown_tone_witness :
  exists pre post,
    build_main_prompt sample_runtime "cats" "30s" "angry" "question" VNull
      "Autopostai.Video" true
    = pre ++ "- Maintain a neutral tone throughout" ++ nl ++ post
    /\ build_main_prompt sample_runtime "cats" "30s" "neutral" "question"
         VNull "Autopostai.Video" true
       = pre ++ "- Maintain a Use a balanced, informative tone tone throughout"
         ++ nl ++ post.
Proof.
  apply (main_prompt_unknown_tone sample_runtime "cats" "30s" "angry"
           "question" VNull "Autopostai.Video" true).
  simpl. intros [H|[H|[H|[H|[H|[H|[]]]]]]]; discriminate H.
Defined.

(** X6. In the voice prompt a tone outside the six is treated as the
    neutral tone: the two prompts are equal. *)
Theorem voice_prompt_unknown_tone
  (E : runtime) (topic tone : string) (voice_script_style : value)
  (brand_name : string) (include_branding : bool) :
  ~ In tone VALID_TONES ->
  build_voice_script_prompt E topic tone voice_script_style brand_name
    include_branding
  = build_voice_script_prompt E topic "neutral" voice_script_style brand_name
      include_branding.
Proof.
  intros H. unfold build_voice_script_prompt.
  rewrite (get_default_absent tone voice_tone_instructions) by exact H.
  reflexivity.
Qed.

Lemma voice_prompt_unknown_tone_witness :
  build_voice_script_prompt sample_runtime "cats" "angry" VNull
    "Autopostai.Video" true
  = build_voice_script_prompt sample_runtime "cats" "neutral" VNull
      "Autopostai.Video" true.
Proof.
  apply (voice_prompt_unknown_tone sample_runtime "cats" "angry" VNull
           "Autopostai.Video" true).
  simpl. intros [H|[H|[H|[H|[H|[H|[]]]]]]]; discriminate H.
Defined.

(** X7. A voice style that is falsy - None, the empty string - gives the
    prompt of an absent style, whose style line reads "Style: narration". *)
Theorem voice_prompt_default_style
  (E : runtime) (topic tone : string) (voice_script_style : value)
  (brand_name : string) (include_branding : bool) :
  truthy voice_script_style = false ->
  build_voice_script_prompt E topic tone voice_script_style brand_name
    include_branding
  = build_voice_script_prompt E topic tone VNull brand_name include_branding
  /\ exists pre post,
       build_voice_script_prompt E topic tone voice_script_style brand_name
         include_branding
       = pre ++ "- Style: narration" ++ nl ++ post.
Proof.
  intros H. split.
  - unfold build_voice_script_prompt. now rewrite H.
  - exists ("Generate a voice narration script about: " ++ topic ++ nl
            ++ nl ++ "Requirements:" ++ nl
            ++ "- Optimized for voice/narration (more conversational and natural-sounding)"
            ++ nl
            ++ "- Use "
            ++ get_default voice_tone_instructions tone
                 "conversational and clear"
            ++ " tone" ++ nl).
    eexists. unfold build_voice_script_prompt. rewrite H.
    rewrite ?append_assoc. reflexivity.
Qed.

Lemma voice_prompt_default_style_witness :
  build_voice_script_prompt sample_runtime "cats" "funny" (VStr "")
    "Autopostai.Video" true
  = build_voice_script_prompt sample_runtime "cats" "funny" VNull
      "Autopostai.Video" true.
Proof.
  exact (proj1 (voice_prompt_default_style sample_runtime "cats" "funny"
                  (VStr "") "Autopostai.Video" true eq_refl)).
Defined.

(** ** count_words: further properties *)

Lemma count_words_scan (s : string) : count_words s = runs_after true s.
Proof.
  unfold count_words, split_ws. now rewrite split_ws_from_length.
Qed.

Lemma runs_after_blank (b : bool) (s : string) :
  blank s = true -> runs_after b s = 0%nat.
Proof.
  revert b. induction s as [|c s IH]; intros b H; [reflexivity|].
  simpl in *. apply andb_true_iff in H as [-> H]. now apply IH.
Qed.

Lemma runs_after_zero (s : string) :
  runs_after true s = 0%nat -> blank s = true.
Proof.
  induction s as [|c s IH]; [reflexivity|]. simpl.
  destruct (isspace c); [exact IH | discriminate].
Qed.

Lemma runs_after_append_space (b : bool) (a r : string) (c : ascii) :
  isspace c = true ->
  runs_after b (a ++ String c r)
  = (runs_after b a + runs_after true r)%nat.
Proof.
  intros Hc. revert b. induction a as [|x a IH]; intros b; simpl.
  - now rewrite Hc.
  - destruct (isspace x); rewrite IH; lia.
Qed.

Lemma runs_after_blank_head (a s : string) :
  blank a = true -> runs_after true (a ++ s) = runs_after true s.
Proof.
  induction a as [|x a IH]; [reflexivity|]. simpl. intros H.
  apply andb_true_iff in H as [-> H]. now apply IH.
Qed.

Lemma runs_after_blank_tail (b : bool) (s t : string) :
  blank t = true -> runs_after b (s ++ t) = runs_after b s.
Proof.
  intros H. revert b. induction s as [|x s IH]; intros b; simpl.
  - now apply runs_after_blank.
  - destruct (isspace x); now rewrite IH.
Qed.

Lemma runs_after_bound (s : string) :
  (2 * runs_after true s <= String.length s + 1
   /\ 2 * runs_after false s <= String.length s)%nat.
Proof.
  induction s as [|c s [IH1 IH2]]; simpl; [lia|].
  destruct (isspace c); lia.
Qed.

(** X8. A text has no words exactly when every character of it is
    whitespace. *)
Theorem count_words_zero_iff_blank (text : string) :
  count_words text = 0%nat <-> blank text = true.
Proof.
  rewrite count_words_scan. split.
  - apply runs_after_zero.
  - apply runs_after_blank.
Qed.

(** X9. Words are counted on each side of a whitespace character
    separately: joining two texts with one adds their counts. *)
Theorem count_words_additive (a b : string) (c : ascii) :
  isspace c = true ->
  count_words (a ++ String c b) = (count_words a + count_words b)%nat.
Proof.
  intros Hc. rewrite !count_words_scan. now apply runs_after_append_space.
Qed.

Lemma count_words_additive_witness :
  count_words ("two words" ++ String " " "and three more")
  = (count_words "two words" + count_words "and three more")%nat.
Proof.
  apply (count_words_additive "two words" "and three more" " ").
  reflexivity.
Defined.

(** X10. Stripping a text does not change its word count, so the handler
    counts the words of the completion as the endpoint sent it. *)
Theorem count_words_strip (text : string) :
  count_words (strip text) = count_words text.
Proof.
  rewrite !count_words_scan. unfold strip.
  destruct (lstrip_split text) as [a [Ha [Hba _]]].
  destruct (rstrip_split (lstrip text)) as [b [Hb [Hbb _]]].
  rewrite Ha at 2. rewrite (runs_after_blank_head _ _ Hba).
  rewrite Hb at 2. now rewrite (runs_after_blank_tail _ _ _ Hbb).
Qed.

(** X11. A text of n characters has at most (n + 1) / 2 words. *)
Theorem count_words_bound (text : string) :
  (2 * count_words text <= String.length text + 1)%nat.
Proof. rewrite count_words_scan. apply runs_after_bound. Qed.

(** ** extract_hook: further properties *)

Lemma extract_hook_some (s line : string) :
  first_nonblank_line s = Some line ->
  extract_hook s = strip line /\ blank line = false.
Proof.
  intros H.
  assert (Hb : blank line = false).
  { unfold first_nonblank_line in H. apply find_some in H as [_ H].
    now apply negb_true_iff in H. }
  split; [|exact Hb].
  rewrite extract_hook_unfold, first_stripped_find.
  unfold first_nonblank_line in H. rewrite H. cbv zeta.
  rewrite strip_blank, Hb. cbv iota. now rewrite strip_blank, Hb.
Qed.

Lemma split_on_lines_clean (c : ascii) (s l : string) :
  In l (split_on c s) -> has_char c l = false.
Proof.
  revert l. induction s as [|x s IH]; intros l H.
  - destruct H as [<-|[]]. reflexivity.
  - simpl in H. destruct (Ascii.eqb x c) eqn:Hx.
    + destruct H as [<-|H]; [reflexivity | now apply IH].
    + destruct (split_on c s) as [|w ws].
      * destruct H as [<-|[]]. simpl. now rewrite Hx.
      * destruct H as [<-|H].
        -- simpl. rewrite Hx. apply IH. now left.
        -- apply IH. now right.
Qed.

Lemma strip_keeps_clean (c : ascii) (l : string) :
  has_char c l = false -> has_char c (strip l) = false.
Proof.
  intros H. unfold strip.
  destruct (lstrip_split l) as [a [Ha _]].
  destruct (rstrip_split (lstrip l)) as [b [Hb _]].
  rewrite Ha, has_char_append in H. apply orb_false_iff in H as [_ H].
  rewrite Hb, has_char_append in H. now apply orb_false_iff in H as [H _].
Qed.

Lemma lstrip_fixed (s : string) : starts_nonspace s = true -> lstrip s = s.
Proof.
  destruct s as [|c s]; [discriminate|]. simpl. intros H.
  apply negb_true_iff in H. now rewrite H.
Qed.

Lemma rstrip_fixed (s : string) : ends_nonspace s = true -> rstrip s = s.
Proof.
  induction s as [|c s IH]; [discriminate|]. intros H.
  destruct s as [|c' s].
  - simpl in *. apply negb_true_iff in H. now rewrite H.
  - cbn [ends_nonspace] in H.
    change (rstrip (String c (String c' s)))
      with (match rstrip (String c' s) with
            | EmptyString => if isspace c then "" else String c ""
            | r => String c r
            end).
    rewrite (IH H). reflexivity.
Qed.

Lemma starts_nonspace_not_blank (s : string) :
  starts_nonspace s = true -> blank s = false.
Proof.
  destruct s as [|c s]; [discriminate|]. simpl. intros H.
  apply negb_true_iff in H. now rewrite H.
Qed.

(** The first line of a text, and what follows it. *)
Lemma split_on_head (c : ascii) (s : string) :
  exists t, s = nth 0 (split_on c s) "" ++ t
            /\ (t = "" \/ exists t', t = String c t').
Proof.
  induction s as [|x s [t [Hs Ht]]].
  - exists "". split; [reflexivity | now left].
  - simpl. destruct (Ascii.eqb x c) eqn:Hx.
    + apply Ascii.eqb_eq in Hx. subst x. exists (String c s).
      split; [reflexivity | right; now exists s].
    + destruct (split_on c s) as [|w ws] eqn:Hw.
      * now apply split_on_nonempty in Hw.
      * exists t. simpl in *. split; [now rewrite Hs at 1 | exact Ht].
Qed.

(** X12. The hook is never the empty string - for a text without any
    visible character it is a lone period - so the fallback to the first
    100 characters is never taken. *)
Theorem extract_hook_never_empty (script : string) :
  is_empty (extract_hook script) = false
  /\ (first_nonblank_line script = None -> extract_hook script = ".").
Proof.
  split; [|apply extract_hook_blank].
  destruct (first_nonblank_line script) as [line|] eqn:H.
  - destruct (extract_hook_some _ _ H) as [-> Hb]. now rewrite strip_blank.
  - now rewrite (extract_hook_blank _ H).
Qed.

Lemma extract_hook_never_empty_witness :
  extract_hook (String " " nl) = ".".
Proof.
  exact (proj2 (extract_hook_never_empty (String " " nl)) eq_refl).
Defined.

(** X13. The hook holds no line break: it is a single line. *)
Theorem extract_hook_single_line (script : string) :
  has_char (ascii_of_nat 10) (extract_hook script) = false.
Proof.
  destruct (first_nonblank_line script) as [line|] eqn:H.
  - destruct (extract_hook_some _ _ H) as [-> _].
    apply strip_keeps_clean.
    unfold first_nonblank_line in H. apply find_some in H as [H _].
    now apply (split_on_lines_clean _ script).
  - now rewrite (extract_hook_blank _ H).
Qed.

(** X14. Extracting the hook of a hook changes nothing. *)
Theorem extract_hook_idempotent (script : string) :
  extract_hook (extract_hook script) = extract_hook script.
Proof.
  destruct (first_nonblank_line script) as [line|] eqn:H.
  - destruct (extract_hook_some _ _ H) as [He Hb]. rewrite He.
    destruct (strip_split line Hb) as [a [b [_ [_ [_ [Hst Hen]]]]]].
    assert (Hclean : has_char (ascii_of_nat 10) (strip line) = false).
    { apply strip_keeps_clean.
      unfold first_nonblank_line in H. apply find_some in H as [H _].
      now apply (split_on_lines_clean _ script). }
    assert (Hfirst : first_nonblank_line (strip line) = Some (strip line)).
    { unfold first_nonblank_line, lines_of.
      rewrite (split_on_absent _ _ Hclean). simpl.
      now rewrite (starts_nonspace_not_blank _ Hst). }
    destruct (extract_hook_some _ _ Hfirst) as [-> _].
    unfold strip at 1. rewrite (lstrip_fixed _ Hst). now apply rstrip_fixed.
  - now rewrite (extract_hook_blank _ H).
Qed.

(** X15. When the text begins with a visible character - as every
    non-empty script does once the handler has stripped it - the hook is
    the beginning of the text: its first line, without the whitespace that
    ends it. *)
Theorem extract_hook_is_prefix (script : string) :
  starts_nonspace script = true ->
  exists rest,
    script = extract_hook script ++ rest
    /\ starts_nonspace rest = false
    /\ extract_hook script = rstrip (nth 0 (lines_of script) "").
Proof.
  intros Hs. unfold lines_of.
  destruct (split_on_head (ascii_of_nat 10) script) as [t [Hsplit Ht]].
  set (line := nth 0 (split_on (ascii_of_nat 10) script) "") in *.
  assert (Hline : starts_nonspace line = true).
  { destruct line as [|c l].
    - simpl in Hsplit. subst t.
      destruct Ht as [->|[t' ->]]; discriminate Hs.
    - rewrite Hsplit in Hs. exact Hs. }
  assert (Hfirst : first_nonblank_line script = Some line).
  { unfold first_nonblank_line, lines_of. subst line.
    destruct (split_on (ascii_of_nat 10) script) as [|l ls] eqn:Hl.
    - now apply split_on_nonempty in Hl.
    - simpl in *. now rewrite (starts_nonspace_not_blank _ Hline). }
  destruct (extract_hook_some _ _ Hfirst) as [He _].
  assert (Hstrip : strip line = rstrip line)
    by (unfold strip; now rewrite (lstrip_fixed _ Hline)).
  destruct (rstrip_split line) as [b [Hb [Hbb _]]].
  exists (b ++ t). rewrite He, Hstrip. repeat split.
  - rewrite <- append_assoc, <- Hb. exact Hsplit.
  - destruct b as [|x b].
    + simpl. destruct Ht as [->|[t' ->]]; reflexivity.
    + simpl in *. apply andb_true_iff in Hbb as [-> _]. reflexivity.
Qed.

Lemma extract_hook_is_prefix_witness :
  exists rest,
    "Hello " ++ nl ++ "World" = extract_hook ("Hello " ++ nl ++ "World") ++ rest
    /\ starts_nonspace rest = false
    /\ extract_hook ("Hello " ++ nl ++ "World")
       = rstrip (nth 0 (lines_of ("Hello " ++ nl ++ "World")) "").
Proof.
  apply (extract_hook_is_prefix ("Hello " ++ nl ++ "World")). reflexivity.
Defined.

(** ** Dictionaries: assignment and lookup *)

Lemma dict_get_set_same (d : dict) (k : string) (v : value) :
  dict_get (dict_set d k v) k = Some v.
Proof.
  unfold dict_get. induction d as [|[k' v'] d IH]; simpl.
  - now rewrite String.eqb_refl.
  - destruct (String.eqb k k') eqn:He; simpl.
    + now rewrite String.eqb_refl.
    + now rewrite He.
Qed.

Lemma dict_get_set_other (d : dict) (k k' : string) (v : value) :
  k' <> k -> dict_get (dict_set d k v) k' = dict_get d k'.
Proof.
  intros Hne. unfold dict_get. apply String.eqb_neq in Hne.
  induction d as [|[k0 v0] d IH]; simpl.
  - now rewrite Hne.
  - destruct (String.eqb k k0) eqn:He; simpl.
    + apply String.eqb_eq in He. subst k0. now rewrite Hne.
    + destruct (String.eqb k' k0); [reflexivity | exact IH].
Qed.

Lemma assoc_app {A : Type} (k : string) (l1 l2 : list (string * A)) :
  assoc k (l1 ++ l2)%list
  = match assoc k l1 with Some a => Some a | None => assoc k l2 end.
Proof.
  induction l1 as [|[k' a] l1 IH]; simpl; [reflexivity|].
  destruct (String.eqb k k'); [reflexivity | exact IH].
Qed.

(** After [d.update(items)], a key holds the value of the last item that
    names it, and what [d] held when none does. *)
Lemma dict_get_update (d items : dict) (k : string) :
  dict_get (dict_update d items) k
  = match assoc k (rev items) with
    | Some v => Some v
    | None => dict_get d k
    end.
Proof.
  unfold dict_update. revert d.
  induction items as [|[k0 v0] items IH]; intros d; [reflexivity|].
  cbn [fold_left fst snd rev]. rewrite IH, assoc_app.
  destruct (assoc k (rev items)); [reflexivity|]. cbn [assoc].
  destruct (String.eqb k k0) eqn:He.
  - apply String.eqb_eq in He. subst k0. apply dict_get_set_same.
  - apply String.eqb_neq in He. now apply dict_get_set_other.
Qed.

Lemma lower_keys_lookup (items : dict) (k : string) :
  dict_get (lower_keys items) k = last_named k items.
Proof.
  unfold lower_keys, last_named. rewrite dict_get_update.
  now destruct (assoc k _).
Qed.

Lemma dict_set_keys (d : dict) (k x : string) (v : value) :
  In x (map fst (dict_set d k v)) -> x = k \/ In x (map fst d).
Proof.
  induction d as [|[k0 v0] d IH]; simpl.
  - intros [<-|[]]. now left.
  - destruct (String.eqb k k0) eqn:He; simpl.
    + apply String.eqb_eq in He. subst k0. tauto.
    + intros [<-|H]; [tauto|]. destruct (IH H); tauto.
Qed.

Lemma dict_set_nodup (d : dict) (k : string) (v : value) :
  NoDup (map fst d) -> NoDup (map fst (dict_set d k v)).
Proof.
  induction d as [|[k0 v0] d IH]; simpl; intros H.
  - constructor; [intros [] | constructor].
  - inversion H as [|? ? Hnotin Hnd]; subst.
    destruct (String.eqb k k0) eqn:He; simpl.
    + apply String.eqb_eq in He. subst k0. now constructor.
    + constructor; [|now apply IH].
      intros Hin. apply dict_set_keys in Hin as [->|Hin]; [|contradiction].
      now rewrite String.eqb_refl in He.
Qed.

Lemma dict_update_nodup (d items : dict) :
  NoDup (map fst d) -> NoDup (map fst (dict_update d items)).
Proof.
  unfold dict_update. revert d.
  induction items as [|[k v] items IH]; intros d H; [exact H|].
  simpl. apply IH. now apply dict_set_nodup.
Qed.

Lemma assoc_rev_nodup {A : Type} (k : string) (l : list (string * A)) :
  NoDup (map fst l) -> assoc k (rev l) = assoc k l.
Proof.
  induction l as [|[k0 a0] l IH]; intros H; [reflexivity|].
  inversion H as [|? ? Hnotin Hnd]; subst.
  cbn [rev assoc]. rewrite assoc_app, (IH Hnd). cbn [assoc].
  destruct (String.eqb k k0) eqn:He; [|now destruct (assoc k l)].
  apply String.eqb_eq in He. subst k0.
  now rewrite (assoc_absent k l Hnotin).
Qed.

(** Updating with a dict built by [lower_keys] looks a key up in that dict
    first. *)
Lemma dict_get_update_lower_keys (d items : dict) (k : string) :
  dict_get (dict_update d (lower_keys items)) k
  = match last_named k items with
    | Some v => Some v
    | None => dict_get d k
    end.
Proof.
  rewrite <- lower_keys_lookup, dict_get_update.
  rewrite assoc_rev_nodup; [reflexivity|].
  unfold lower_keys. apply dict_update_nodup. constructor.
Qed.

(** What the handler finds under a name in the header map it assembles. *)
Lemma collect_headers_lookup (E : runtime) (r : request) (event : dict)
  (k : string) :
  dict_get (collect_headers E r event) k
  = match
      match dict_get event "headers" with
      | Some (VDict event_headers) => last_named k event_headers
      | Some (VStr text) =>
          match json_loads E text with
          | Some (VDict parsed_headers) => last_named k parsed_headers
          | _ => None
          end
      | _ => None
      end
    with
    | Some v => Some v
    | None => last_named k (transport_items r)
    end.
Proof.
  assert (Ht : dict_get
                 match request_headers r with
                 | Some items =>
                     lower_keys (map (fun kv => (fst kv, VStr (snd kv))) items)
                 | None => []
                 end k
               = last_named k (transport_items r)).
  { unfold transport_items. destruct (request_headers r).
    - apply lower_keys_lookup.
    - reflexivity. }
  unfold collect_headers.
  destruct (dict_get event "headers") as [[| | | |text| |eh]|];
    try exact Ht.
  - destruct (json_loads E text) as [[| | | | | |ph]|]; try exact Ht.
    now rewrite dict_get_update_lower_keys, Ht.
  - now rewrite dict_get_update_lower_keys, Ht.
Qed.

Lemma lower_char_not_capital_x (c : ascii) : lower_char c <> "X"%char.
Proof.
  destruct c as [[] [] [] [] [] [] [] []]; vm_compute; discriminate.
Qed.

Lemma last_named_capital (items : dict) :
  last_named "X-Api-Key" items = None.
Proof.
  unfold last_named. apply assoc_absent. intros H.
  apply in_map_iff in H as [kv [Hk H]]. apply in_rev in H.
  apply in_map_iff in H as [[k0 v0] [<- _]]. cbn [fst snd] in Hk.
  destruct k0 as [|c k0]; [discriminate|]. cbn [lower] in Hk.
  injection Hk as Hc _. now apply lower_char_not_capital_x in Hc.
Qed.

(** ** validate_api_key and the header map *)

(** X16. The key check passes exactly when no secret is configured, or the
    header x-api-key holds the secret, or that header is missing or falsy
    and the header X-Api-Key holds the secret: a wrong value under
    x-api-key is not rescued by a right one under X-Api-Key. *)
Theorem validate_api_key_iff (E : runtime) (headers : dict) :
  validate_api_key E headers = true
  <-> is_empty (API_KEY E) = true
      \/ dict_get headers "x-api-key" = Some (VStr (API_KEY E))
      \/ (falsy_or_absent (dict_get headers "x-api-key")
          /\ dict_get headers "X-Api-Key" = Some (VStr (API_KEY E))).
Proof.
  unfold validate_api_key, py_or, get_or_none, falsy_or_absent.
  destruct (is_empty (API_KEY E)) eqn:Hk; [split; auto|].
  split.
  - intros H. apply eq_str_true in H. right.
    destruct (dict_get headers "x-api-key") as [v|].
    + destruct (truthy v) eqn:Hv; [left; now rewrite H|].
      right. split; [reflexivity|].
      destruct (dict_get headers "X-Api-Key"); [now rewrite H|discriminate].
    + right. split; [exact I|].
      simpl in H.
      destruct (dict_get headers "X-Api-Key"); [now rewrite H|discriminate].
  - intros [H|[H|[Hf H]]]; [discriminate| |].
    + rewrite H. cbn [truthy]. rewrite Hk. cbn [negb eq_str].
      apply String.eqb_refl.
    + rewrite H. destruct (dict_get headers "x-api-key") as [v|].
      * rewrite Hf. simpl. apply String.eqb_refl.
      * simpl. apply String.eqb_refl.
Qed.

Lemma validate_api_key_iff_witness :
  is_empty (API_KEY sample_runtime) = true
  \/ dict_get [("X-Api-Key", VStr "secret")] "x-api-key"
     = Some (VStr (API_KEY sample_runtime))
  \/ (falsy_or_absent (dict_get [("X-Api-Key", VStr "secret")] "x-api-key")
      /\ dict_get [("X-Api-Key", VStr "secret")] "X-Api-Key"
         = Some (VStr (API_KEY sample_runtime))).
Proof.
  apply (proj1 (validate_api_key_iff sample_runtime
                  [("X-Api-Key", VStr "secret")])).
  reflexivity.
Defined.

(** X17. In the handler every header name is lower-cased before the check,
    so the lookup under X-Api-Key finds nothing, and a request passes the
    key check exactly when no secret is configured or the assembled map
    holds the secret under x-api-key. *)
Theorem handler_key_check (E : runtime) (r : request) (event : dict) :
  dict_get (collect_headers E r event) "X-Api-Key" = None
  /\ (validate_api_key E (collect_headers E r event) = true
      <-> is_empty (API_KEY E) = true
          \/ dict_get (collect_headers E r event) "x-api-key"
             = Some (VStr (API_KEY E))).
Proof.
  assert (Hcap : dict_get (collect_headers E r event) "X-Api-Key" = None).
  { rewrite collect_headers_lookup.
    destruct (dict_get event "headers") as [[| | | |text| |eh]|];
      rewrite ?last_named_capital; try reflexivity.
    destruct (json_loads E text) as [[| | | | | |ph]|];
      rewrite ?last_named_capital; reflexivity. }
  split; [exact Hcap|].
  unfold validate_api_key, py_or, get_or_none. rewrite Hcap.
  destruct (is_empty (API_KEY E)) eqn:Hk; [split; auto|].
  split.
  - intros H. apply eq_str_true in H. right.
    destruct (dict_get (collect_headers E r event) "x-api-key") as [v|].
    + destruct (truthy v); [now rewrite H | discriminate].
    + simpl in H. discriminate.
  - intros [H|H]; [discriminate|]. rewrite H. cbn [truthy].
    rewrite Hk. cbn [negb eq_str]. apply String.eqb_refl.
Qed.

(** X18. A header of the body overrides the transport header of the same
    name: under a name the handler finds the value of the last body header
    whose lower-cased name it is, and the last such transport header only
    when the body has none. *)
Theorem body_headers_override
  (E : runtime) (r : request) (event event_headers : dict) (k : string) :
  dict_get event "headers" = Some (VDict event_headers) ->
  dict_get (collect_headers E r event) k
  = match last_named k event_headers with
    | Some v => Some v
    | None => last_named k (transport_items r)
    end.
Proof. intros H. now rewrite collect_headers_lookup, H. Qed.

Lemma body_headers_override_witness :
  dict_get
    (collect_headers sample_runtime
       (mk_request None (Some [("X-Api-Key", "secret")]))
       [("headers", VDict [("X-API-KEY", VStr "other")])])
    "x-api-key"
  = match last_named "x-api-key" [("X-API-KEY", VStr "other")] with
    | Some v => Some v
    | None =>
        last_named "x-api-key"
          (transport_items (mk_request None (Some [("X-Api-Key", "secret")])))
    end.
Proof.
  apply (body_headers_override sample_runtime
           (mk_request None (Some [("X-Api-Key", "secret")]))
           [("headers", VDict [("X-API-KEY", VStr "other")])]
           [("X-API-KEY", VStr "other")] "x-api-key").
  reflexivity.
Defined.

Lemma assoc_none_keys {A : Type} (k : string) (l : list (string * A)) :
  (forall kv, In kv l -> fst kv <> k) -> assoc k l = None.
Proof.
  intros H. apply assoc_absent. intros Hin.
  apply in_map_iff in Hin as [kv [Hk Hin]]. now apply (H kv Hin).
Qed.

(** X19. The name of the key header is matched whatever its case: when the
    body brings no headers and the last transport header whose lower-cased
    name is x-api-key holds the secret, the key check passes. *)
Theorem transport_key_any_case
  (E : runtime) (r : request) (event : dict)
  (before after : list (string * string)) (name : string) :
  dict_get event "headers" = None ->
  request_headers r = Some (before ++ (name, API_KEY E) :: after)%list ->
  lower name = "x-api-key" ->
  (forall kv, In kv after -> lower (fst kv) <> "x-api-key") ->
  validate_api_key E (collect_headers E r event) = true.
Proof.
  intros Hb Hr Hn Hafter.
  assert (Hl : dict_get (collect_headers E r event) "x-api-key"
               = Some (VStr (API_KEY E))).
  { rewrite collect_headers_lookup, Hb. unfold transport_items, last_named.
    rewrite Hr, !map_app. cbn [map fst snd]. rewrite rev_app_distr.
    cbn [rev]. rewrite <- !app_assoc. cbn [app].
    rewrite assoc_app, assoc_none_keys.
    - cbn [assoc]. now rewrite Hn.
    - intros kv Hin. apply in_rev in Hin.
      apply in_map_iff in Hin as [kv1 [<- Hin]].
      apply in_map_iff in Hin as [kv0 [<- Hin]]. simpl.
      now apply Hafter. }
  unfold validate_api_key, py_or, get_or_none. rewrite Hl.
  destruct (is_empty (API_KEY E)) eqn:Hk; [reflexivity|].
  cbn [truthy]. rewrite Hk. cbn [negb eq_str]. apply String.eqb_refl.
Qed.

Lemma transport_key_any_case_witness :
  validate_api_key sample_runtime
    (collect_headers sample_runtime
       (mk_request None
          (Some ([("Accept", "*/*")] ++ ("X-API-Key", "secret") :: [])%list))
       [])
  = true.
Proof.
  apply (transport_key_any_case sample_runtime
           (mk_request None
              (Some ([("Accept", "*/*")] ++ ("X-API-Key", "secret") :: [])%list))
           [] [("Accept", "*/*")] [] "X-API-Key").
  - reflexivity.
  - reflexivity.
  - reflexivity.
  - intros kv [].
Defined.

(** ** The handler: responses and calls *)

Lemma contains_occurrences (sub s : string) :
  contains sub s = negb (occurrences sub s =? 0)%nat.
Proof.
  induction s as [|c s IH]; cbn [contains occurrences].
  - destruct sub; reflexivity.
  - rewrite IH. destruct (prefix sub (String c s)); reflexivity.
Qed.

(** A literal in front that cannot take part in an occurrence does not
    change whether a text contains [sub]. *)
Lemma contains_left (sub P R : string) :
  is_empty sub = false -> no_left_border sub P = true ->
  occurrences sub P = 0%nat ->
  contains sub (P ++ R) = contains sub R.
Proof.
  intros Hne Hb H0.
  now rewrite !contains_occurrences, (occurrences_left _ _ _ Hne Hb), H0.
Qed.

Lemma rate_limited_model_error (msg : string) :
  rate_limited ("Model error: " ++ msg) = rate_limited msg.
Proof.
  unfold rate_limited. rewrite lower_append.
  change (lower "Model error: ") with "model error: ".
  rewrite (contains_left "rate limit" "model error: ") by reflexivity.
  now rewrite (contains_left "429" "Model error: ") by reflexivity.
Qed.

(** How the handler reports the exception of a generation function. *)
Lemma handle_failure (A : Type) (e : exn) :
  wrap_model_error (A := A) e = Raise (Exception (failure_text (exn_str e)))
  /\ handle (Exception (failure_text (exn_str e)))
     = [("error", VStr (failure_text (exn_str e)));
        ("code",
         VStr (if rate_limited (exn_str e) then "RATE_LIMIT"
               else "MODEL_ERROR"))].
Proof.
  unfold wrap_model_error, failure_text.
  fold (rate_limited (exn_str e)).
  destruct (rate_limited (exn_str e)) eqn:Hr; split; try reflexivity.
  unfold handle. cbn [exn_str].
  fold (rate_limited ("Model error: " ++ exn_str e)).
  rewrite rate_limited_model_error, Hr.
  rewrite lower_append. reflexivity.
Qed.

(** X20. When the script call fails, the request ends with one call made
    and an error response: "Rate limit exceeded" with code RATE_LIMIT when
    the text of the failure holds "rate limit" in any case or "429", and
    "Model error: " followed by that text with code MODEL_ERROR
    otherwise. *)
Theorem script_failure_response
  (E : runtime) (r : request) (history : list call) (event d : dict)
  (msg : string) :
  request_event r = VDict event ->
  validate_api_key E (collect_headers E r event) = true ->
  dict_get event "input" = Some (VDict d) ->
  validate_input E (VDict d) = Ok (true, None, None) ->
  create E history (request_script_call E d) = Failed msg ->
  generate E r history
  = (Ok [("error",
          VStr (if rate_limited msg then "Rate limit exceeded"
                else "Model error: " ++ msg));
         ("code",
          VStr (if rate_limited msg then "RATE_LIMIT" else "MODEL_ERROR"))],
     (history ++ [request_script_call E d])%list).
Proof.
  intros He Ha Hi Hv Hc.
  rewrite (generate_on_valid_input E r history event d He Ha Hi Hv).
  unfold generate_validated, generate_script.
  fold (request_script_call E d). rewrite Hc.
  destruct (handle_failure (string * Z) (Exception msg)) as [-> Hh].
  cbn [fst snd]. rewrite Hh. reflexivity.
Qed.

Lemma script_failure_response_witness :
  generate (runtime_with (fun _ _ => Failed "HTTP 429 Too Many Requests"))
    (request_of sample_input) []
  = (Ok [("error",
          VStr (if rate_limited "HTTP 429 Too Many Requests"
                then "Rate limit exceeded"
                else "Model error: " ++ "HTTP 429 Too Many Requests"));
         ("code",
          VStr (if rate_limited "HTTP 429 Too Many Requests"
                then "RATE_LIMIT" else "MODEL_ERROR"))],
     ([] ++ [request_script_call
               (runtime_with (fun _ _ => Failed "HTTP 429 Too Many Requests"))
               sample_input])%list).
Proof.
  apply (script_failure_response
           (runtime_with (fun _ _ => Failed "HTTP 429 Too Many Requests"))
           (request_of sample_input) []
           [("input", VDict sample_input)] sample_input
           "HTTP 429 Too Many Requests");
    reflexivity.
Defined.

(** X21. Without a request for the voice script, a script call that stays
    within the budget is the only call, and the response is exactly script,
    hook, word_count, estimated_duration - the length as sent - and
    tokens_used. *)
Theorem script_only_response
  (E : runtime) (r : request) (history : list call) (event d : dict)
  (content : string) (tokens : Z) :
  request_event r = VDict event ->
  validate_api_key E (collect_headers E r event) = true ->
  dict_get event "input" = Some (VDict d) ->
  validate_input E (VDict d) = Ok (true, None, None) ->
  truthy (dict_get_default d "generate_voice_script" (VBool false)) = false ->
  create E history (request_script_call E d) = Completed content tokens ->
  tokens <= int_of (get_or_none d "max_tokens") ->
  generate E r history
  = (Ok (script_output (get_or_none d "length") (strip content) tokens),
     (history ++ [request_script_call E d])%list).
Proof.
  intros He Ha Hi Hv Hg Hc Hle.
  rewrite (generate_on_valid_input E r history event d He Ha Hi Hv).
  unfold generate_validated, generate_script.
  fold (request_script_call E d). rewrite Hc.
  assert (Hgt : (tokens >? int_of (get_or_none d "max_tokens")) = false).
  { destruct (tokens >? _) eqn:H; [|reflexivity].
    apply Z.gtb_lt in H. lia. }
  rewrite Hgt, Hg. reflexivity.
Qed.

Lemma script_only_response_witness :
  generate sample_runtime (request_of sample_input) []
  = (Ok (script_output (get_or_none sample_input "length")
           (strip "Ever wondered why cats purr? Here is why.") 120),
     ([] ++ [request_script_call sample_runtime sample_input])%list).
Proof.
  apply (script_only_response sample_runtime (request_of sample_input) []
           [("input", VDict sample_input)] sample_input
           "Ever wondered why cats purr? Here is why." 120);
    try reflexivity.
  vm_compute. discriminate.
Defined.

Lemma handle_code (e : exn) :
  exists msg code,
    handle e = [("error", VStr msg); ("code", VStr code)]
    /\ In code ERROR_CODES.
Proof.
  assert (H : forall m,
            exists msg code,
              handle (Exception m) = [("error", VStr msg); ("code", VStr code)]
              /\ In code ERROR_CODES).
  { intros m. unfold handle. cbn [exn_str].
    destruct (contains "rate limit" (lower m) || contains "429" m);
      [|destruct (contains "model" (lower m))];
      do 2 eexists; (split; [reflexivity | simpl; tauto]). }
  destruct e as [m|m|m|m|m]; try apply (H m).
  exists m, "VALIDATION_ERROR". split; [reflexivity | simpl; tauto].
Qed.

(** The part of the handler that follows validation makes the script call
    and no other, and its response carries no voice script. *)
Lemma generate_validated_single_call
  (E : runtime) (d : dict) (history : list call) :
  snd (generate_validated E d history)
  = (history ++ [request_script_call E d])%list
  /\ dict_get (fst (generate_validated E d history)) "voice_script" = None
  /\ dict_get (fst (generate_validated E d history)) "voice_word_count" = None.
Proof.
  unfold generate_validated, generate_script.
  fold (request_script_call E d).
  destruct (create E history (request_script_call E d))
    as [content tokens|msg].
  - destruct (tokens >? int_of (get_or_none d "max_tokens")).
    + destruct (handle_failure (string * Z)
                  (ValueError ("Generated " ++ of_Z tokens
                               ++ " tokens, exceeds limit of "
                               ++ of_Z (int_of (get_or_none d "max_tokens")))))
        as [-> Hh].
      cbn [fst snd]. rewrite Hh. repeat split; reflexivity.
    + destruct (truthy (dict_get_default d "generate_voice_script"
                          (VBool false)));
        unfold call_object; cbn [fst snd exn_str]; repeat split; reflexivity.
  - destruct (handle_failure (string * Z) (Exception msg)) as [-> Hh].
    cbn [fst snd]. rewrite Hh. repeat split; reflexivity.
Qed.

(** The response and the calls of the part of the handler that follows
    validation. *)
Lemma generate_validated_cases (E : runtime) (d : dict) (history : list call) :
  ((exists msg code,
      fst (generate_validated E d history)
      = [("error", VStr msg); ("code", VStr code)]
      /\ In code ERROR_CODES)
   \/ (exists script,
         dict_get (fst (generate_validated E d history)) "script"
         = Some (VStr script)
         /\ dict_get (fst (generate_validated E d history)) "hook"
            = Some (VStr (extract_hook script))
         /\ dict_get (fst (generate_validated E d history)) "word_count"
            = Some (VInt (Z.of_nat (count_words script)))
         /\ dict_get (fst (generate_validated E d history)) "error" = None
         /\ dict_get (fst (generate_validated E d history)) "code" = None))
  /\ (snd (generate_validated E d history)
      = (history ++ [request_script_call E d])%list
      \/ (snd (generate_validated E d history)
          = (history ++ [request_script_call E d; request_voice_call E d])%list
          /\ truthy (dict_get_default d "generate_voice_script" (VBool false))
             = true
          /\ exists content tokens,
               create E history (request_script_call E d)
               = Completed content tokens
               /\ tokens <= int_of (get_or_none d "max_tokens"))).
Proof.
  split; [|left; apply generate_validated_single_call].
  unfold generate_validated, generate_script.
  fold (request_script_call E d).
  destruct (create E history (request_script_call E d))
    as [content tokens|msg].
  - destruct (tokens >? int_of (get_or_none d "max_tokens")).
    + destruct (handle_failure (string * Z)
                  (ValueError ("Generated " ++ of_Z tokens
                               ++ " tokens, exceeds limit of "
                               ++ of_Z (int_of (get_or_none d "max_tokens")))))
        as [-> _].
      cbn [fst snd]. left. apply handle_code.
    + right. exists (strip content).
      destruct (truthy (dict_get_default d "generate_voice_script"
                          (VBool false)));
        unfold call_object; cbn [fst snd exn_str]; repeat split; reflexivity.
  - destruct (handle_failure (string * Z) (Exception msg)) as [-> _].
    cbn [fst snd]. left. apply handle_code.
Qed.

(** X22. No response carries a voice script.  The handler binds the flag of
    the request to the name of the function that would write one, so the
    voice step calls the flag and fails before any request is sent: whatever
    the request, also when it asks for the voice script, a response has
    neither voice_script nor voice_word_count, and the endpoint has been
    called at most once, for the script. *)
Theorem voice_script_never_generated
  (E : runtime) (r : request) (history log : list call) (output : dict) :
  generate E r history = (Ok output, log) ->
  dict_get output "voice_script" = None
  /\ dict_get output "voice_word_count" = None
  /\ (log = history
      \/ exists d, log = (history ++ [request_script_call E d])%list).
Proof.
  unfold generate, error_response.
  destruct (request_event r) as [| | | | | |event]; try discriminate.
  destruct (validate_api_key E (collect_headers E r event)); cbn [negb].
  2:{ intros [= <- <-]. repeat split; auto. }
  destruct (truthy (dict_get_default event "input" (VDict []))); cbn [negb].
  2:{ intros [= <- <-]. repeat split; auto. }
  destruct (validate_input E (dict_get_default event "input" (VDict [])))
    as [v|e] eqn:Hv.
  - destruct (validate_input_verdict_cases E _ v Hv) as [->|[msg ->]];
      cbn [negb].
    + destruct (generate_validated_single_call E
                  (items_of (dict_get_default event "input" (VDict [])))
                  history) as [Hlog [Hvs Hvw]].
      destruct (generate_validated E _ history) as [out log'].
      cbn [fst snd] in *. intros [= <- <-]. repeat split; auto.
      right. eexists. exact Hlog.
    + intros [= <- <-]. repeat split; auto.
  - intros [= <- <-].
    destruct (handle_code e) as [msg [code [-> _]]]. repeat split; auto.
Qed.

Lemma voice_script_never_generated_witness :
  dict_get
    (dict_set
       (script_output (get_or_none sample_voice_input "length")
          (strip "Ever wondered why cats purr? Here is why.") 120)
       "voice_script_error" (VStr "'bool' object is not callable"))
    "voice_script" = None
  /\ dict_get
       (dict_set
          (script_output (get_or_none sample_voice_input "length")
             (strip "Ever wondered why cats purr? Here is why.") 120)
          "voice_script_error" (VStr "'bool' object is not callable"))
       "voice_word_count" = None
  /\ ([request_script_call sample_runtime sample_voice_input] = []
      \/ exists d,
           [request_script_call sample_runtime sample_voice_input]
           = ([] ++ [request_script_call sample_runtime d])%list).
Proof.
  apply (voice_script_never_generated sample_runtime
           (request_of sample_voice_input) []).
  reflexivity.
Defined.

(** X23. Whatever the request, a response the handler returns is either an
    error response - exactly the fields error and code, the code one of
    AUTH_ERROR, VALIDATION_ERROR, RATE_LIMIT, MODEL_ERROR, INTERNAL_ERROR -
    or a result with script, the hook and the word count of that script,
    and neither error nor code. *)
Theorem handler_response_taxonomy
  (E : runtime) (r : request) (history log : list call) (output : dict) :
  generate E r history = (Ok output, log) ->
  (exists msg code,
     output = [("error", VStr msg); ("code", VStr code)]
     /\ In code ERROR_CODES)
  \/ (exists script,
        dict_get output "script" = Some (VStr script)
        /\ dict_get output "hook" = Some (VStr (extract_hook script))
        /\ dict_get output "word_count"
           = Some (VInt (Z.of_nat (count_words script)))
        /\ dict_get output "error" = None
        /\ dict_get output "code" = None).
Proof.
  unfold generate, error_response.
  destruct (request_event r) as [| | | | | |event]; try discriminate.
  destruct (validate_api_key E (collect_headers E r event)); cbn [negb].
  2:{ intros [= <- _]. left. do 2 eexists. split; [reflexivity|].
      simpl. tauto. }
  destruct (truthy (dict_get_default event "input" (VDict []))); cbn [negb].
  2:{ intros [= <- _]. left. do 2 eexists. split; [reflexivity|].
      simpl. tauto. }
  destruct (validate_input E (dict_get_default event "input" (VDict [])))
    as [v|e] eqn:Hv.
  - destruct (validate_input_verdict_cases E _ v Hv) as [->|[msg ->]];
      cbn [negb].
    + destruct (generate_validated_cases E
                  (items_of (dict_get_default event "input" (VDict [])))
                  history) as [H _].
      destruct (generate_validated E _ history) as [out log'].
      intros [= <- _]. exact H.
    + intros [= <- _]. left. do 2 eexists. split; [reflexivity|].
      simpl. tauto.
  - intros [= <- _]. left. apply handle_code.
Qed.

Lemma handler_response_taxonomy_witness :
  (exists msg code,
     [("error", VStr "Invalid API key"); ("code", VStr "AUTH_ERROR")]
     = [("error", VStr msg); ("code", VStr code)]
     /\ In code ERROR_CODES)
  \/ (exists script,
        dict_get [("error", VStr "Invalid API key");
                  ("code", VStr "AUTH_ERROR")] "script"
        = Some (VStr script)
        /\ dict_get [("error", VStr "Invalid API key");
                     ("code", VStr "AUTH_ERROR")] "hook"
           = Some (VStr (extract_hook script))
        /\ dict_get [("error", VStr "Invalid API key");
                     ("code", VStr "AUTH_ERROR")] "word_count"
           = Some (VInt (Z.of_nat (count_words script)))
        /\ dict_get [("error", VStr "Invalid API key");
                     ("code", VStr "AUTH_ERROR")] "error" = None
        /\ dict_get [("error", VStr "Invalid API key");
                     ("code", VStr "AUTH_ERROR")] "code" = None).
Proof.
  apply (handler_response_taxonomy sample_runtime keyless_request [] []).
  reflexivity.
Defined.

(** X24. The handler calls the endpoint only for a request that passed the
    key check and validation, and then at most twice: the script call, and
    after it the voice call, made only when the voice script was asked for
    and the script call completed within its budget. *)
Theorem handler_call_discipline
  (E : runtime) (r : request) (history : list call) :
  snd (generate E r history) = history
  \/ exists event d,
       request_event r = VDict event
       /\ validate_api_key E (collect_headers E r event) = true
       /\ dict_get event "input" = Some (VDict d)
       /\ request_valid d
       /\ (snd (generate E r history)
           = (history ++ [request_script_call E d])%list
           \/ (snd (generate E r history)
               = (history
                  ++ [request_script_call E d; request_voice_call E d])%list
               /\ truthy (dict_get_default d "generate_voice_script"
                            (VBool false)) = true
               /\ exists content tokens,
                    create E history (request_script_call E d)
                    = Completed content tokens
                    /\ tokens <= int_of (get_or_none d "max_tokens"))).
Proof.
  unfold generate, dict_get_default.
  destruct (request_event r) as [| | | | | |event] eqn:He; try (now left).
  destruct (validate_api_key E (collect_headers E r event)) eqn:Ha;
    cbn [negb]; [|now left].
  destruct (dict_get event "input") as [input|] eqn:Hi; [|now left].
  destruct (truthy input); cbn [negb]; [|now left].
  destruct (validate_input E input) as [v|e] eqn:Hv; [|now left].
  destruct (validate_input_verdict_cases E _ v Hv) as [->|[msg ->]];
    cbn [negb]; [|now left].
  destruct (validate_input_accepted E input Hv) as [d [-> Hd]].
  cbn [items_of].
  destruct (generate_validated_cases E d history) as [_ H].
  destruct (generate_validated E d history) as [out log]. cbn [snd] in *.
  right. exists event, d. repeat split; auto.
Qed.

(** X25. A request that passed the key check but brings no input, or a
    falsy one, is answered "Missing 'input' field"; an input that is not a
    dictionary is answered "Input must be a dictionary"; and every
    rejection of the validator becomes the response with its own message.
    The code is VALIDATION_ERROR each time and no call is made. *)
Theorem rejected_before_generation
  (E : runtime) (r : request) (history : list call) (event : dict) :
  request_event r = VDict event ->
  validate_api_key E (collect_headers E r event) = true ->
  (falsy_or_absent (dict_get event "input") ->
   generate E r history
   = (Ok [("error", VStr "Missing 'input' field");
          ("code", VStr "VALIDATION_ERROR")], history))
  /\ (forall input,
        dict_get event "input" = Some input -> truthy input = true ->
        (forall d, input <> VDict d) ->
        generate E r history
        = (Ok [("error", VStr "Input must be a dictionary");
               ("code", VStr "VALIDATION_ERROR")], history))
  /\ (forall input msg,
        dict_get event "input" = Some input -> truthy input = true ->
        validate_input E input
        = Ok (false, Some msg, Some "VALIDATION_ERROR") ->
        generate E r history
        = (Ok [("error", VStr msg); ("code", VStr "VALIDATION_ERROR")],
           history)).
Proof.
  intros He Ha. unfold generate, dict_get_default. rewrite He, Ha.
  cbn [negb]. split; [|split].
  - unfold falsy_or_absent.
    destruct (dict_get event "input") as [input|];
      [intros ->; reflexivity | reflexivity].
  - intros input Hi Ht Hnd. rewrite Hi, Ht. cbn [negb].
    destruct input as [| | | | | |d]; try reflexivity.
    now destruct (Hnd d).
  - intros input msg Hi Ht Hv. rewrite Hi, Ht, Hv. reflexivity.
Qed.

Lemma rejected_before_generation_witness :
  generate sample_runtime
    (mk_request (Some (VDict [("input", VDict [])]))
       (Some [("x-api-key", "secret")])) []
  = (Ok [("error", VStr "Missing 'input' field");
         ("code", VStr "VALIDATION_ERROR")], []).
Proof.
  apply (proj1 (rejected_before_generation sample_runtime
                  (mk_request (Some (VDict [("input", VDict [])]))
                     (Some [("x-api-key", "secret")])) []
                  [("input", VDict [])] eq_refl eq_refl)).
  reflexivity.
Defined.

(** X26. A request that passed the key check and validation makes the
    handler call the endpoint exactly once, whether or not the voice script
    is asked for and whether or not the call succeeds.  That call asks for
    exactly the budget the table fixes for the length of the request, names
    the model the request gives, or the configured one when it gives none,
    and carries the scriptwriter system message and the main prompt built
    from the fields of the request. *)
Theorem handler_single_call_budget
  (E : runtime) (r : request) (history : list call) (event d : dict) :
  request_event r = VDict event ->
  validate_api_key E (collect_headers E r event) = true ->
  dict_get event "input" = Some (VDict d) ->
  validate_input E (VDict d) = Ok (true, None, None) ->
  exists c L budget,
    snd (generate E r history) = (history ++ [c])%list
    /\ dict_get d "length" = Some (VStr L)
    /\ assoc L LENGTH_TO_TOKENS = Some budget
    /\ call_max_tokens c = budget
    /\ call_model c
       = (if truthy (get_or_none d "model") then get_or_none d "model"
          else VStr (MODEL_NAME E))
    /\ call_system c
       = "You are an expert scriptwriter for short-form video content."
    /\ call_user c
       = build_main_prompt E (py_str E (get_or_none d "topic"))
           (py_str E (get_or_none d "length"))
           (py_str E (get_or_none d "tone"))
           (py_str E (get_or_none d "hook_style"))
           (get_or_none d "word_count")
           (py_str E (dict_get_default d "brand_name"
                        (VStr "Autopostai.Video")))
           (truthy (dict_get_default d "include_branding" (VBool true))).
Proof.
  intros He Ha Hi Hv.
  rewrite (generate_on_valid_input E r history event d He Ha Hi Hv).
  destruct (generate_validated_single_call E d history) as [-> _].
  destruct (validate_input_accepted E (VDict d) Hv)
    as [d' [[= <-] [L [c [[_ [Hl _]] [Hc Hmt]]]]]].
  exists (request_script_call E d), L, c.
  repeat split; auto.
  unfold request_script_call, script_call, get_or_none.
  cbn [call_max_tokens]. now rewrite Hmt.
Qed.

Lemma handler_single_call_budget_witness :
  exists c L budget,
    snd (generate sample_runtime (request_of sample_voice_input) [])
    = ([] ++ [c])%list
    /\ dict_get sample_voice_input "length" = Some (VStr L)
    /\ assoc L LENGTH_TO_TOKENS = Some budget
    /\ call_max_tokens c = budget
    /\ call_model c
       = (if truthy (get_or_none sample_voice_input "model")
          then get_or_none sample_voice_input "model"
          else VStr (MODEL_NAME sample_runtime))
    /\ call_system c
       = "You are an expert scriptwriter for short-form video content."
    /\ call_user c
       = build_main_prompt sample_runtime
           (py_str sample_runtime (get_or_none sample_voice_input "topic"))
           (py_str sample_runtime (get_or_none sample_voice_input "length"))
           (py_str sample_runtime (get_or_none sample_voice_input "tone"))
           (py_str sample_runtime
              (get_or_none sample_voice_input "hook_style"))
           (get_or_none sample_voice_input "word_count")
           (py_str sample_runtime
              (dict_get_default sample_voice_input "brand_name"
                 (VStr "Autopostai.Video")))
           (truthy (dict_get_default sample_voice_input "include_branding"
                      (VBool true))).
Proof.
  apply (handler_single_call_budget sample_runtime
           (request_of sample_voice_input) []
           [("input", VDict sample_voice_input)] sample_voice_input);
    reflexivity.
Defined.

(** X27. A body that decodes to something other than an object - a list,
    a string, a number, null - is not answered at all: the handler raises
    UnboundLocalError, whatever the headers, and makes no call. *)
Theorem non_object_body_escapes
  (E : runtime) (r : request) (history : list call) (body : value) :
  request_json r = Some body ->
  (forall event, body <> VDict event) ->
  generate E r history
  = (Raise (UnboundLocalError
              "local variable 'request_id' referenced before assignment"),
     history).
Proof.
  intros Hj Hb. unfold generate, request_event. rewrite Hj.
  destruct body as [| | | | | |event]; try reflexivity.
  now destruct (Hb event).
Qed.

Lemma non_object_body_escapes_witness :
  generate sample_runtime
    (mk_request (Some (VList [])) (Some [("x-api-key", "secret")])) []
  = (Raise (UnboundLocalError
              "local variable 'request_id' referenced before assignment"),
     []).
Proof.
  apply (non_object_body_escapes sample_runtime
           (mk_request (Some (VList [])) (Some [("x-api-key", "secret")]))
           [] (VList [])).
  - reflexivity.
  - discriminate.
Defined.

(** X28. Headers that the body gives as a string are decoded: when the
    string holds a JSON object its entries override the transport headers
    like those of a dict; when it cannot be decoded, or decodes to anything
    else, it is ignored without an error and the transport headers stand
    alone. *)
Theorem body_headers_as_text
  (E : runtime) (r : request) (event : dict) (text : string) (k : string) :
  dict_get event "headers" = Some (VStr text) ->
  (forall parsed_headers,
     json_loads E text = Some (VDict parsed_headers) ->
     dict_get (collect_headers E r event) k
     = match last_named k parsed_headers with
       | Some v => Some v
       | None => last_named k (transport_items r)
       end)
  /\ ((forall parsed_headers,
         json_loads E text <> Some (VDict parsed_headers)) ->
      dict_get (collect_headers E r event) k
      = last_named k (transport_items r)).
Proof.
  intros H. rewrite collect_headers_lookup, H. split.
  - intros ph ->. reflexivity.
  - intros Hn. destruct (json_loads E text) as [[| | | | | |ph]|];
      try reflexivity.
    now destruct (Hn ph).
Qed.

Lemma body_headers_as_text_witness :
  dict_get
    (collect_headers sample_runtime
       (mk_request None (Some [("X-Api-Key", "secret")]))
       [("headers", VStr "not json")])
    "x-api-key"
  = last_named "x-api-key"
      (transport_items (mk_request None (Some [("X-Api-Key", "secret")]))).
Proof.
  apply (proj2 (body_headers_as_text sample_runtime
                  (mk_request None (Some [("X-Api-Key", "secret")]))
                  [("headers", VStr "not json")] "not json" "x-api-key"
                  eq_refl)).
  intros parsed_headers. discriminate.
Defined.
